(** * FeishuPlugin: token cache, card builder, delivery and command dispatch

    A shallow embedding of [plugins/feishumsg/__init__.py].  Python values
    are an inductive type, dictionaries are finite maps, and the methods of
    [FeishuPlugin] are functions in a state-and-exception monad over the
    plugin instance and the outside world (clock, network, host log). *)

From Stdlib Require Import ZArith QArith Lqa Qround Qabs Qpower String.
From stdpp Require Import gmap strings list fin_maps.

#[local] Set Warnings "-register-all".
#[local] Open Scope string_scope.
#[local] Open Scope list_scope.

(** ** Python values *)

(** The values that flow through the plugin: configuration entries, event
    payloads, JSON bodies.  A [float] is kept as the rational it denotes. *)
Inductive pyval : Type :=
| PNone
| PBool (b : bool)
| PInt (z : Z)
| PFloat (q : Q)
| PStr (s : string)
| PList (l : list pyval)
| PDict (d : gmap string pyval).

Abbreviation pydict := (gmap string pyval).

(** [bool(v)] *)
Definition truthy (v : pyval) : bool :=
  match v with
  | PNone => false
  | PBool b => b
  | PInt z => negb (z =? 0)%Z
  | PFloat q => negb (Qeq_bool q 0)
  | PStr s => negb (String.eqb s "")
  | PList l => match l with [] => false | _ :: _ => true end
  | PDict d => negb (bool_decide (d = ∅))
  end.

(** [a or b] *)
Definition py_or (a b : pyval) : pyval := if truthy a then a else b.

(** [v == 0]: numbers compare by value and [False == 0] holds. *)
Definition py_eq_zero (v : pyval) : bool :=
  match v with
  | PBool b => negb b
  | PInt z => (z =? 0)%Z
  | PFloat q => Qeq_bool q 0
  | _ => false
  end.

(** [v == "literal"] *)
Definition py_eq_str (v : pyval) (lit : string) : bool :=
  match v with
  | PStr s => String.eqb s lit
  | _ => false
  end.

(** [d.get(k)] on a dictionary: [None] when the key is absent. *)
Definition dict_get (d : pydict) (k : string) : pyval := default PNone (d !! k).

(** ** Floats

    A Python [float] is an IEEE 754 double; it is kept as the rational it
    denotes, and an operation rounds its exact result to the nearest
    double. *)

(** [floor (log2 x)] for a positive rational. *)
Definition floor_log2 (x : Q) : Z :=
  let e0 := (Z.log2 (Qnum x) - Z.log2 (Zpos (Qden x)))%Z in
  if Qle_bool (2 ^ e0) x then e0 else (e0 - 1)%Z.

(** The exponent of the unit in the last place of the doubles around [x]:
    53 significant bits, least normal exponent -1022. *)
Definition ulp_exponent (x : Q) : Z :=
  (Z.max (floor_log2 (Qabs x)) (-1022) - 52)%Z.

(** The nearest integer, a tie going to the even one. *)
Definition round_half_even (q : Q) : Z :=
  let f := Qfloor q in
  match (q - inject_Z f ?= 1 # 2)%Q with
  | Lt => f
  | Gt => (f + 1)%Z
  | Eq => if Z.even f then f else (f + 1)%Z
  end.

(** The double nearest to [x], a tie going to the even significand. *)
Definition round_double (x : Q) : Q :=
  let u := (2 ^ ulp_exponent x)%Q in
  Qred (inject_Z (round_half_even (x / u)) * u).

(** [x + y] on floats: the double nearest to the exact sum.  Overflow to
    infinity is left out: the sum of a clock reading, a finite double, and
    5400 stays finite. *)
Definition float_add (x y : Q) : Q := round_double (x + y).

(** ** Exceptions *)

Inductive exn : Type :=
| KeyError (key : string)
| AttributeError (attr : string)
| RequestException (msg : string)
| JSONDecodeError (msg : string).

Inductive outcome (A : Type) : Type :=
| Ok (a : A)
| Raise (e : exn).
Arguments Ok {A} a.
Arguments Raise {A} e.

Definition obind {A B} (o : outcome A) (k : A -> outcome B) : outcome B :=
  match o with
  | Ok a => k a
  | Raise e => Raise e
  end.

Notation "'let?' x ':=' o 'in' k" := (obind o (fun x => k))
  (at level 10, x name, o at level 100, k at level 200).

(** [d[k]] *)
Definition dict_getitem (d : pydict) (k : string) : outcome pyval :=
  match d !! k with
  | Some v => Ok v
  | None => Raise (KeyError k)
  end.

(** [v.get(k)] on an arbitrary value: only dictionaries have [get]. *)
Definition py_get (v : pyval) (k : string) : outcome pyval :=
  match v with
  | PDict d => Ok (dict_get d k)
  | _ => Raise (AttributeError "get")
  end.

(** [v[k]] with a string key, for a value that [py_get] accepted. *)
Definition py_getitem (v : pyval) (k : string) : outcome pyval :=
  match v with
  | PDict d => dict_getitem d k
  | _ => Raise (AttributeError "__getitem__")
  end.

(** ** The plugin instance and the world around it *)

Inductive level : Type := DEBUG | INFO | WARN | ERROR.

(** What an f-string interpolates into a log line. *)
Inductive log_arg : Type :=
| NoArg
| ArgVal (v : pyval)
| ArgExn (e : exn).

Record log_line : Type := LogLine {
  log_level : level;
  log_text : string;
  log_value : log_arg
}.

(** A header is a literal, or [f"Bearer {token}"] with the token kept apart. *)
Inductive header_value : Type :=
| HStr (s : string)
| HBearer (token : pyval).

(** One [session.post(url, headers=..., json=..., timeout=...)]. *)
Record http_call : Type := HttpCall {
  via : nat;                 (* identity of the [requests.Session] used *)
  url : string;
  headers : gmap string header_value;
  json : pyval;
  timeout : Z
}.

(** What comes back: [session.post] raises, or yields a response whose
    [.json()] raises or parses. *)
Inductive body : Type :=
| NotJson (msg : string)
| Json (v : pyval).

Inductive response : Type :=
| ConnErr (msg : string)
| Body (b : body).

(** The fields set by [__init__], and the class-level [plugin_config]. *)
Record plugin : Type := Plugin {
  _session : option nat;
  _access_token : pyval;
  _token_expiry : Q;
  plugin_config : pydict
}.

Record world : Type := World {
  self : plugin;
  clock_reads : nat;             (* calls of [time.time()] so far *)
  sessions_created : nat;        (* [requests.Session()] objects so far *)
  sessions_closed : list nat;    (* [close()] calls, oldest first *)
  net_log : list http_call;      (* requests sent, oldest first *)
  host_log : list log_line       (* lines given to the host, oldest first *)
}.

(** The environment answers the [k]-th clock reading and the [k]-th request. *)
Record env : Type := Env {
  time_time : nat -> Q;
  http_reply : nat -> http_call -> response
}.

Definition set_self (f : plugin -> plugin) (w : world) : world :=
  World (f (self w)) (clock_reads w) (sessions_created w) (sessions_closed w)
        (net_log w) (host_log w).
Definition ticked (w : world) : world :=
  World (self w) (S (clock_reads w)) (sessions_created w) (sessions_closed w)
        (net_log w) (host_log w).
Definition opened (w : world) : world :=
  World (self w) (clock_reads w) (S (sessions_created w)) (sessions_closed w)
        (net_log w) (host_log w).
Definition closed (s : nat) (w : world) : world :=
  World (self w) (clock_reads w) (sessions_created w) (sessions_closed w ++ [s])
        (net_log w) (host_log w).
Definition sent (c : http_call) (w : world) : world :=
  World (self w) (clock_reads w) (sessions_created w) (sessions_closed w)
        (net_log w ++ [c]) (host_log w).
Definition logged (l : log_line) (w : world) : world :=
  World (self w) (clock_reads w) (sessions_created w) (sessions_closed w)
        (net_log w) (host_log w ++ [l]).

Definition with_session (s : option nat) (p : plugin) : plugin :=
  Plugin s (_access_token p) (_token_expiry p) (plugin_config p).
Definition with_access_token (t : pyval) (p : plugin) : plugin :=
  Plugin (_session p) t (_token_expiry p) (plugin_config p).
Definition with_token_expiry (e : Q) (p : plugin) : plugin :=
  Plugin (_session p) (_access_token p) e (plugin_config p).

(** ** The monad of plugin methods *)

Definition M (A : Type) : Type := world -> outcome A * world.

Definition ret {A} (a : A) : M A := fun w => (Ok a, w).
Definition raise {A} (e : exn) : M A := fun w => (Raise e, w).
Definition bind {A B} (m : M A) (k : A -> M B) : M B :=
  fun w => match m w with
           | (Ok a, w') => k a w'
           | (Raise e, w') => (Raise e, w')
           end.
(** [try: m except Exception as e: h e]; the effects of [m] before the
    exception stay. *)
Definition try_except {A} (m : M A) (h : exn -> M A) : M A :=
  fun w => match m w with
           | (Ok a, w') => (Ok a, w')
           | (Raise e, w') => h e w'
           end.
Definition lift {A} (o : outcome A) : M A := fun w => (o, w).

Declare Scope py_scope.
Delimit Scope py_scope with py.
Notation "'let!' x ':=' m 'in' k" := (bind m (fun x => k))
  (at level 10, x name, m at level 100, k at level 200) : py_scope.
Notation "'do!' m 'in' k" := (bind m (fun _ => k))
  (at level 10, m at level 100, k at level 200) : py_scope.
#[local] Open Scope py_scope.

Definition get_self : M plugin := fun w => (Ok (self w), w).
Definition modify_self (f : plugin -> plugin) : M unit :=
  fun w => (Ok tt, set_self f w).

(** [self.debug/info/warn/error(...)]: the host's reporting interface. *)
Definition log (l : level) (text : string) (a : log_arg) : M unit :=
  fun w => (Ok tt, logged (LogLine l text a) w).

(** [requests.Session()]: a new session object. *)
Definition new_session : M nat :=
  fun w => (Ok (sessions_created w), opened w).

(** [session.close()] *)
Definition session_close (s : nat) : M unit :=
  fun w => (Ok tt, closed s w).

Section Methods.

Variable E : env.

(** [time.time()] *)
Definition now : M Q :=
  fun w => (Ok (time_time E (clock_reads w)), ticked w).

(** The request goes out: it is the [length net_log]-th of the run. *)
Definition send (c : http_call) : M nat :=
  fun w => (Ok (length (net_log w)), sent c w).

(** The reply to request number [k] comes in. *)
Definition receive (k : nat) (c : http_call) : M body :=
  match http_reply E k c with
  | ConnErr msg => raise (RequestException msg)
  | Body b => ret b
  end.

(** [session.post(...)] *)
Definition session_post (c : http_call) : M body :=
  let! k := send c in receive k c.

(** [resp.json()] *)
Definition resp_json (b : body) : M pyval :=
  match b with
  | NotJson msg => raise (JSONDecodeError msg)
  | Json v => ret v
  end.

(** [self._session or requests.Session()] *)
Definition session_or_new : M nat :=
  let! p := get_self in
  match _session p with
  | Some s => ret s
  | None => new_session
  end.

Definition token_url : string :=
  "https://open.feishu.cn/open-apis/auth/v3/app_access_token/internal".
Definition message_url : string :=
  "https://open.feishu.cn/open-apis/im/v1/messages?receive_id_type=chat_id".

Definition token_call (s : nat) (app_id app_secret : pyval) : http_call :=
  HttpCall s token_url ∅
           (PDict {[ "app_id" := app_id; "app_secret" := app_secret ]}) 10.

(** Lines 83-88: the reply is read; [Some t] is the [return] inside the
    [try], [None] falls through to the final [return None]. *)
Definition token_from_body (b : body) : M (option pyval) :=
  let! data := resp_json b in
  let! code := lift (py_get data "code") in
  if py_eq_zero code then
    let! t := lift (py_getitem data "app_access_token") in
    do! modify_self (with_access_token t) in
    let! T := now in
    do! modify_self (with_token_expiry (float_add T 5400)) in
    let! p := get_self in
    ret (Some (_access_token p))
  else
    do! log ERROR "❌ Token获取失败: {data}" (ArgVal data) in
    ret None.

Definition token_except (e : exn) : M (option pyval) :=
  do! log ERROR "❌ Token请求异常: {str(e)}" (ArgExn e) in
  ret None.

(** Line 70: [self._access_token and time.time() < self._token_expiry];
    the clock is read only when a token is there. *)
Definition cache_check : M bool :=
  let! p := get_self in
  if truthy (_access_token p) then
    let! t := now in
    ret (if Qlt_le_dec t (_token_expiry p) then true else false)
  else ret false.

(** Lines 81-88, the body of the [try]. *)
Definition token_request (app_id app_secret : pyval) : M (option pyval) :=
  let! session := session_or_new in
  let! resp := session_post (token_call session app_id app_secret) in
  token_from_body resp.

Definition _get_access_token : M pyval :=
  let! hit := cache_check in
  let! p := get_self in
  if hit then ret (_access_token p)
  else
    let app_id := dict_get (plugin_config p) "feishu_app_id" in
    let app_secret := dict_get (plugin_config p) "feishu_app_secret" in
    if negb (truthy app_id) || negb (truthy app_secret) then
      do! log WARN "❌ 飞书凭证未配置" NoArg in
      ret PNone
    else
      let! r := try_except (token_request app_id app_secret) token_except in
      match r with
      | Some t => ret t
      | None => ret PNone
      end.

End Methods.

(** ** The card (lines 101-117 of [post_message]) *)

(** Lines 111-116: the dictionary appended for one button.  The entries are
    evaluated in the order written: [btn["text"]], [btn.get("primary")],
    [btn["callback_data"]]. *)
Definition render_button (btn : pydict) : outcome pyval :=
  let? label := dict_getitem btn "text" in
  let style := if truthy (dict_get btn "primary") then "primary" else "default" in
  let? data := dict_getitem btn "callback_data" in
  Ok (PDict {[ "tag" := PStr "button";
               "text" := PDict {[ "tag" := PStr "plain_text"; "content" := label ]};
               "type" := PStr style;
               "value" := PDict {[ "type" := PStr "callback"; "data" := data ]} ]}).

(** [for btn in row: actions.append({...})] *)
Fixpoint render_row (row : list pydict) (actions : list pyval) : outcome (list pyval) :=
  match row with
  | [] => Ok actions
  | btn :: rest =>
      let? b := render_button btn in
      render_row rest (actions ++ [b])
  end.

(** [card["elements"].append(x)] *)
Definition elements_append (card : pydict) (x : pyval) : outcome pydict :=
  let? els := dict_getitem card "elements" in
  match els with
  | PList l => Ok (<[ "elements" := PList (l ++ [x]) ]> card)
  | _ => Raise (AttributeError "append")
  end.

(** [for row in buttons: actions = []; ...; card["elements"].append({...})] *)
Fixpoint render_rows (buttons : list (list pydict)) (card : pydict) : outcome pydict :=
  match buttons with
  | [] => Ok card
  | row :: rest =>
      let? actions := render_row row [] in
      let? card' := elements_append card
                      (PDict {[ "tag" := PStr "action"; "actions" := PList actions ]}) in
      render_rows rest card'
  end.

Definition card_skeleton (title text : pyval) : pydict :=
  {[ "config" := PDict {[ "wide_screen_mode" := PBool true ]};
     "header" := PDict {[ "title" := PDict {[ "tag" := PStr "plain_text";
                                              "content" := title ]};
                          "template" := PStr "blue" ]};
     "elements" := PList [PDict {[ "tag" := PStr "div";
                                   "text" := PDict {[ "tag" := PStr "lark_md";
                                                      "content" := py_or text (PStr " ") ]} ]}] ]}.

(** [buttons] is [None] (the default) or a list of rows of dictionaries. *)
Definition build_card (title text : pyval) (buttons : option (list (list pydict)))
  : outcome pydict :=
  let card := card_skeleton title text in
  match buttons with
  | Some (row :: rest) => render_rows (row :: rest) card
  | _ => Ok card
  end.

Section Delivery.

Variable E : env.

Definition message_call (s : nat) (token channel : pyval) (card : pydict) : http_call :=
  HttpCall s message_url
           {[ "Authorization" := HBearer token;
              "Content-Type" := HStr "application/json" ]}
           (PDict {[ "receive_id" := channel;
                     "msg_type" := PStr "interactive";
                     "content" := PDict card ]})
           15.

(** Lines 120-135, the body of the [try]; the value is what the method
    returns from there ([False] when it falls through to the last line). *)
Definition message_request (token channel : pyval) (card : pydict) : M bool :=
  let! session := session_or_new in
  let! resp := session_post E (message_call session token channel card) in
  let! result := resp_json resp in
  let! code := lift (py_get result "code") in
  if py_eq_zero code then
    do! log INFO "✅ 消息已发送至 {channel} (长连接复用)" (ArgVal channel) in
    ret true
  else
    do! log ERROR "❌ 消息发送失败: {result}" (ArgVal result) in
    ret false.

Definition message_except (e : exn) : M bool :=
  do! log ERROR "❌ 消息发送异常: {str(e)}" (ArgExn e) in
  ret false.

(** [userid] and [**kwargs] are accepted and never read. *)
Definition post_message (channel title text : pyval)
    (buttons : option (list (list pydict))) : M bool :=
  let! token := _get_access_token E in
  if negb (truthy token) then ret false
  else
    let! card := lift (build_card title text buttons) in
    try_except (message_request token channel card) message_except.

(** ** Lifecycle *)

Definition default_config : pydict :=
  {[ "enabled" := PBool true;
     "feishu_app_id" := PStr "cli_a90f0e54aab05bde";
     "feishu_app_secret" := PStr "FhMr2lnHwj16NBlLaGXrzfSkeUspovsR";
     "use_long_connection" := PBool true ]}.

Definition __init__ : M unit :=
  do! modify_self (fun p => Plugin None PNone 0 (plugin_config p)) in
  log DEBUG "✅ FeishuPlugin 实例化完成 (plugin_id=feishu)" NoArg.

(** The session gets a pooled, retrying adapter and a keep-alive header;
    only its identity is tracked here. *)
Definition _init_session : M unit :=
  let! session := new_session in
  modify_self (with_session (Some session)).

Definition stop : M unit :=
  let! p := get_self in
  do! match _session p with
      | Some s =>
          do! session_close s in
          modify_self (with_session None)
      | None => ret tt
      end in
  do! modify_self (with_access_token PNone) in
  log INFO "⏹️ 飞书插件已停止" NoArg.

(** ** Commands *)

Definition menu_buttons : list (list pydict) :=
  [ [ {[ "text" := PStr "🎬 媒体库"; "callback_data" := PStr "media";
         "primary" := PBool true ]};
      {[ "text" := PStr "🔍 搜索"; "callback_data" := PStr "search" ]} ];
    [ {[ "text" := PStr "⚙️ 设置"; "callback_data" := PStr "settings" ]} ] ].

Definition menu_title : pyval := PStr "🤖 MoviePilot 飞书助手".
Definition menu_text : pyval := PStr "点击下方按钮开始操作：".

Definition _send_main_menu (channel : pyval) : M unit :=
  do! post_message channel menu_title menu_text (Some menu_buttons) in
  ret tt.

(** [event_data] is the payload dictionary of the event. *)
Definition handle_command (event_data : pydict) : M unit :=
  if py_eq_str (dict_get event_data "action") "send_feishu_menu" then
    let channel := py_or (dict_get event_data "channel") (dict_get event_data "user") in
    if truthy channel then
      do! _send_main_menu channel in
      log INFO "📤 已发送菜单至 {channel}" (ArgVal channel)
    else ret tt
  else ret tt.

End Delivery.

(** ** Overlapping callers of [_get_access_token]

    The method holds no lock.  A caller can be overtaken while it is blocked
    in [session.post] (line 82); the code before and after that point is run
    here as one step each. *)

Inductive caller : Type :=
| Entering                              (* about to run line 70 *)
| Waiting (k : nat) (c : http_call)     (* request [k] is out, no reply yet *)
| Returned (v : pyval).

Section Callers.

Variable E : env.

(** Lines 70-82, up to the request leaving. *)
Definition enter : M caller :=
  let! hit := cache_check E in
  let! p := get_self in
  if hit then ret (Returned (_access_token p))
  else
    let app_id := dict_get (plugin_config p) "feishu_app_id" in
    let app_secret := dict_get (plugin_config p) "feishu_app_secret" in
    if negb (truthy app_id) || negb (truthy app_secret) then
      do! log WARN "❌ 飞书凭证未配置" NoArg in
      ret (Returned PNone)
    else
      let! session := session_or_new in
      let c := token_call session app_id app_secret in
      let! k := send c in
      ret (Waiting k c).

(** Lines 82-91, from the reply coming in. *)
Definition resume (k : nat) (c : http_call) : M caller :=
  let! r := try_except
              (let! resp := receive E k c in token_from_body E resp)
              token_except in
  match r with
  | Some t => ret (Returned t)
  | None => ret (Returned PNone)
  end.



End Callers.

(** ** Configuration, state and page

    The remaining methods of the class: [init_plugin], [get_state],
    [get_page], [update_config], [get_command]. *)

(** [a and b] *)
Definition py_and (a b : pyval) : pyval := if truthy a then b else a.

(** The number a value stands for in a comparison: [True] is 1. *)
Definition py_number (v : pyval) : option Q :=
  match v with
  | PBool b => Some (if b then 1 else 0)%Q
  | PInt z => Some (inject_Z z)
  | PFloat q => Some q
  | _ => None
  end.

(** [a == b]: numbers by value, strings, lists and dictionaries by content,
    [None] only with [None]. *)
Fixpoint py_eq (a b : pyval) {struct a} : bool :=
  match a, b with
  | PNone, PNone => true
  | PStr s, PStr t => String.eqb s t
  | PList l, PList m =>
      (fix all2 (l : list pyval) (m : list pyval) {struct l} : bool :=
         match l, m with
         | [], [] => true
         | x :: l', y :: m' => py_eq x y && all2 l' m'
         | _, _ => false
         end) l m
  | PDict d, PDict e =>
      bool_decide (dom d = dom e)
      && map_fold (fun k v acc =>
                     acc && match e !! k with
                            | Some v' => py_eq v v'
                            | None => false
                            end) true d
  | _, _ =>
      match py_number a, py_number b with
      | Some x, Some y => Qeq_bool x y
      | _, _ => false
      end
  end.

(** [d.get(k, dflt)] *)
Definition dict_get_or (d : pydict) (k : string) (dflt : pyval) : pyval :=
  default dflt (d !! k).

(** [d.update(other)]: the entries of [other] win. *)
Definition dict_update (d other : pydict) : pydict := other ∪ d.

Definition with_config (c : pydict) (p : plugin) : plugin :=
  Plugin (_session p) (_access_token p) (_token_expiry p) c.

(** A byte that continues a UTF-8 character. *)
Definition is_continuation (c : Ascii.ascii) : bool :=
  let n := Ascii.nat_of_ascii c in (128 <=? n)%nat && (n <? 192)%nat.

(** The first [n] characters of a UTF-8 string. *)
Fixpoint take_chars (n : nat) (s : string) : string :=
  match s with
  | EmptyString => EmptyString
  | String c rest =>
      if is_continuation c then String c (take_chars n rest)
      else match n with
           | O => EmptyString
           | S n' => String c (take_chars n' rest)
           end
  end.

(** What [v[:10]] raises: [TypeError] on a value that cannot be subscripted;
    on a dictionary the slice is taken as a key ([TypeError], unhashable,
    before Python 3.12, [KeyError] from 3.12 on). *)
Inductive subscript_error : Type :=
| NotSubscriptable (type_name : string)
| SliceAsKey.

(** [v[:10]] *)
Definition py_slice10 (v : pyval) : subscript_error + pyval :=
  match v with
  | PStr s => inr (PStr (take_chars 10 s))
  | PList l => inr (PList (take 10 l))
  | PNone => inl (NotSubscriptable "NoneType")
  | PBool _ => inl (NotSubscriptable "bool")
  | PInt _ => inl (NotSubscriptable "int")
  | PFloat _ => inl (NotSubscriptable "float")
  | PDict _ => inl SliceAsKey
  end.

(** [init_plugin(config)]: [config] is [None] or a dictionary.  The last
    line slices the app identifier before it logs; what it raises there is
    the result, and the effects up to that point stay. *)
Definition init_plugin (config : option pydict) (w : world)
  : (subscript_error + unit) * world :=
  let w1 :=
    match config with
    | Some c =>
        if truthy (PDict c)
        then snd (modify_self
                    (fun p => with_config (dict_update (plugin_config p) c) p) w)
        else w
    | None => w
    end in
  let w2 :=
    if truthy (dict_get_or (plugin_config (self w1)) "use_long_connection" (PBool true))
       && match _session (self w1) with Some _ => false | None => true end
    then snd (log INFO "🔌 长连接会话已初始化 (Keep-Alive + 连接池)" NoArg
                  (snd (_init_session w1)))
    else w1 in
  match py_slice10 (dict_get (plugin_config (self w2)) "feishu_app_id") with
  | inl e => (inl e, w2)
  | inr shown =>
      (inr tt,
       snd (log INFO "🎉 飞书插件初始化成功 | AppID: {app_id[:10]}..." (ArgVal shown) w2))
  end.

Definition get_state : M bool :=
  let! p := get_self in
  ret (truthy (py_and (dict_get (plugin_config p) "enabled")
                 (py_and (dict_get (plugin_config p) "feishu_app_id")
                         (dict_get (plugin_config p) "feishu_app_secret")))).

Definition get_page : M pyval :=
  let! p := get_self in
  let cfg := plugin_config p in
  ret (PDict
         {[ "name" := PStr "飞书配置";
            "config" :=
              PList
                [ PDict {[ "component" := PStr "switch"; "label" := PStr "启用插件";
                           "key" := PStr "enabled";
                           "value" := dict_get_or cfg "enabled" (PBool true) ]};
                  PDict {[ "component" := PStr "input"; "label" := PStr "飞书App ID";
                           "placeholder" := PStr "cli_xxx";
                           "value" := dict_get_or cfg "feishu_app_id" (PStr "");
                           "key" := PStr "feishu_app_id" ]};
                  PDict {[ "component" := PStr "input"; "label" := PStr "飞书App Secret";
                           "placeholder" := PStr "xxx";
                           "value" := dict_get_or cfg "feishu_app_secret" (PStr "");
                           "key" := PStr "feishu_app_secret" ]};
                  PDict {[ "component" := PStr "switch"; "label" := PStr "启用长连接优化";
                           "key" := PStr "use_long_connection";
                           "value" := dict_get_or cfg "use_long_connection"
                                                  (PBool true) ]} ] ]}).

Definition update_config (config : pydict) : M unit :=
  let! p := get_self in
  let old_enabled := dict_get (plugin_config p) "enabled" in
  do! modify_self (fun p => with_config (dict_update (plugin_config p) config) p) in
  do! modify_self (with_access_token PNone) in
  do! modify_self (with_token_expiry 0) in
  if negb (py_eq (dict_get config "enabled") old_enabled) then
    log INFO "🔄 插件状态变更: {'启用' if config.get('enabled') else '禁用'}"
        (ArgVal (PStr (if truthy (dict_get config "enabled") then "启用" else "禁用")))
  else ret tt.

(** [EventType.PluginAction] is the host's; it is passed in. *)
Definition get_command (PluginAction : pyval) : pyval :=
  PList [ PDict {[ "cmd" := PStr "/feishu";
                   "event" := PluginAction;
                   "desc" := PStr "发送飞书交互菜单";
                   "category" := PStr "通知";
                   "data" := PDict {[ "action" := PStr "send_feishu_menu" ]} ]} ].

(** ** Vocabulary of the statements *)

(** The test of line 70 in world [w]. *)
Definition cache_valid (E : env) (w : world) : bool :=
  truthy (_access_token (self w)) &&
  (if Qlt_le_dec (time_time E (clock_reads w)) (_token_expiry (self w))
   then true else false).

(** [x] is the value of a finite double. *)
Definition representable (x : Q) : Prop :=
  exists M k : Z,
    (Z.abs M < 2 ^ 53)%Z /\ (-1074 <= k <= 971)%Z /\ (x == inject_Z M * 2 ^ k)%Q.

(** The world after line 70: the clock was read iff a token was there. *)
Definition after_check (w : world) : world :=
  if truthy (_access_token (self w)) then ticked w else w.

(** Both credentials are there (line 75 does not fire). *)
Definition credentials_set (p : plugin) : bool :=
  truthy (dict_get (plugin_config p) "feishu_app_id") &&
  truthy (dict_get (plugin_config p) "feishu_app_secret").

(** The token a reply of the token endpoint grants, if any: a JSON object
    whose [code] equals 0 and that has an [app_access_token]. *)
Definition token_granted (r : response) : option pyval :=
  match r with
  | Body (Json (PDict d)) =>
      if py_eq_zero (dict_get d "code") then d !! "app_access_token" else None
  | _ => None
  end.

(** The message endpoint accepted: a JSON object whose [code] equals 0. *)
Definition message_accepted (r : response) : bool :=
  match r with
  | Body (Json (PDict d)) => py_eq_zero (dict_get d "code")
  | _ => false
  end.

(** A button dictionary with its label and its callback value. *)
Definition button_ok (btn : pydict) : bool :=
  bool_decide (is_Some (btn !! "text")) &&
  bool_decide (is_Some (btn !! "callback_data")).

Definition buttons_ok (buttons : option (list (list pydict))) : bool :=
  forallb (forallb button_ok) (default [] buttons).

(** The session a request goes through and the world once it is chosen. *)
Definition session_of (w : world) : nat :=
  default (sessions_created w) (_session (self w)).
Definition with_session_chosen (w : world) : world :=
  match _session (self w) with
  | Some _ => w
  | None => opened w
  end.

(** The request [_get_access_token] sends from world [w]. *)
Definition token_call_of (w : world) : http_call :=
  token_call (session_of w)
             (dict_get (plugin_config (self w)) "feishu_app_id")
             (dict_get (plugin_config (self w)) "feishu_app_secret").

(** The world after [_get_access_token] was granted token [t] from world [w]:
    the request went out, the token was stored, the clock was read and the
    expiry stored. *)
Definition issued (E : env) (t : pyval) (w : world) : world :=
  let w2 := sent (token_call_of w) (with_session_chosen (after_check w)) in
  set_self (with_token_expiry (float_add (time_time E (clock_reads w2)) 5400))
           (ticked (set_self (with_access_token t) w2)).

(** The world after a refused or failed request: it went out and one error
    line was reported. *)
Definition refused (ln : log_line) (w : world) : world :=
  logged ln (sent (token_call_of w) (with_session_chosen (after_check w))).

(** [blk] is the action block rendered from [row]: one rendered button per
    button of the row, in the same order. *)
Definition action_block_of (row : list pydict) (blk : pyval) : Prop :=
  exists acts, blk = PDict {[ "tag" := PStr "action"; "actions" := PList acts ]}
               /\ Forall2 (fun btn a => render_button btn = Ok a) row acts.

(** The world after [post_message] sent request [c] and reported [ln]. *)
Definition message_sent (c : http_call) (ln : log_line) (w : world) : world :=
  logged ln (sent c (with_session_chosen w)).

(** ** Scenarios

    Concrete environments and worlds on which the statements are run. *)

Definition reply_token (t : pyval) : response :=
  Body (Json (PDict {[ "code" := PInt 0; "app_access_token" := t ]})).
Definition reply_code (n : Z) (msg : string) : response :=
  Body (Json (PDict {[ "code" := PInt n; "msg" := PStr msg ]})).

(** The clock starts at 1000 and advances by [step] per reading; the two
    endpoints answer [token_reply] and [message_reply]. *)
Definition scenario (step : Q) (token_reply message_reply : response) : env :=
  Env (fun k => (1000 + step * inject_Z (Z.of_nat k))%Q)
      (fun _ c => if String.eqb (url c) token_url then token_reply else message_reply).

(** Right after [__init__], with configuration [cfg]. *)
Definition fresh_world (cfg : pydict) : world :=
  World (Plugin None PNone 0 cfg) 0 0 [] [] [].

(** After [_init_session]: session 0 is the pooled one. *)
Definition pooled_world (cfg : pydict) : world :=
  World (Plugin (Some 0) PNone 0 cfg) 0 1 [] [] [].

(** A token [t] is cached until [expiry]. *)
Definition cached_world (t : pyval) (expiry : Q) : world :=
  World (Plugin (Some 0) t expiry default_config) 0 1 [] [] [].

Definition one_button : option (list (list pydict)) :=
  Some [[ {[ "text" := PStr "A"; "callback_data" := PStr "a"; "primary" := PBool true ]} ]].

(** The world after the first token was issued in the plain scenario. *)
Definition world_1 : world :=
  snd (_get_access_token (scenario 1 (reply_token (PStr "tok123")) (reply_code 0 "ok"))
         (fresh_world default_config)).

(** The component of the configuration page whose [key] is [k]. *)
Definition has_key (k : string) (comp : pyval) : bool :=
  match comp with
  | PDict c => py_eq_str (dict_get c "key") k
  | _ => false
  end.

(** The value the configuration page shows for key [k]. *)
Definition page_value (page : pyval) (k : string) : option pyval :=
  match page with
  | PDict d =>
      match d !! "config" with
      | Some (PList comps) =>
          match List.find (has_key k) comps with
          | Some (PDict c) => c !! "value"
          | _ => None
          end
      | _ => None
      end
  | _ => None
  end.

(** The [data] dictionaries of the command descriptors. *)
Definition command_data (cmds : pyval) : list pydict :=
  match cmds with
  | PList l =>
      omap (fun cmd => match cmd with
                       | PDict d => match d !! "data" with
                                    | Some (PDict dd) => Some dd
                                    | _ => None
                                    end
                       | _ => None
                       end) l
  | _ => []
  end.

(** The configuration as [update_config] and [init_plugin] merge it. *)
Definition merged_config (w : world) (config : pydict) : pydict :=
  dict_update (plugin_config (self w)) config.

(** World [w] with configuration [c]. *)
Definition set_config (c : pydict) (w : world) : world := set_self (with_config c) w.

(** From [w] to [w'] the configuration, the session held and the closed
    sessions are the same, the two logs have only grown, and while a session
    is held every new request went through it and none was opened. *)
Definition steps_on (w w' : world) : Prop :=
  plugin_config (self w') = plugin_config (self w)
  /\ _session (self w') = _session (self w)
  /\ sessions_closed w' = sessions_closed w
  /\ (exists lines, host_log w' = host_log w ++ lines)
  /\ exists calls,
       net_log w' = net_log w ++ calls
       /\ forall s, _session (self w) = Some s ->
            Forall (fun c => via c = s) calls
            /\ sessions_created w' = sessions_created w.

(** The goal [steps_on w w'] when [w'] has the logs of [w]. *)
Ltac steps_on_same :=
  split; [reflexivity|]; split; [reflexivity|]; split; [reflexivity|];
  split; [exists []; cbn; rewrite app_nil_r; reflexivity|];
  exists []; cbn; rewrite app_nil_r; split;
  [reflexivity | intros ? _; split; [constructor | reflexivity]].

(** ** Floats *)





Lemma pow2_succ k : (2 ^ (k + 1) == 2 * 2 ^ k)%Q.
Proof. rewrite Qpower_plus by discriminate. change (2 ^ 1)%Q with 2%Q. ring. Qed.









(** Whole seconds below [2 ^ 53] are doubles. *)
Lemma representable_Z (z : Z) : (Z.abs z < 2 ^ 53)%Z -> representable (inject_Z z).
Proof. intros Hz. exists z, 0%Z. split; [exact Hz|]. split; [lia|]. cbn. ring. Qed.

(** ** The credential manager *)

Lemma cache_check_eq E w :
  cache_check E w = (Ok (cache_valid E w), after_check w).
Proof.
  unfold cache_check, cache_valid, after_check, bind, get_self, now, ret.
  destruct (truthy (_access_token (self w))); cbn [andb]; [|reflexivity].
  destruct (Qlt_le_dec _ _); reflexivity.
Qed.

Lemma self_after_check w : self (after_check w) = self w.
Proof. unfold after_check. destruct (truthy _); reflexivity. Qed.

Lemma net_log_after_check w : net_log (after_check w) = net_log w.
Proof. unfold after_check. destruct (truthy _); reflexivity. Qed.

Lemma get_token_hit E w :
  cache_valid E w = true ->
  _get_access_token E w = (Ok (_access_token (self w)), ticked w).
Proof.
  intros Hv. unfold _get_access_token, bind at 1.
  rewrite cache_check_eq, Hv. unfold bind, get_self, ret.
  unfold cache_valid in Hv. apply andb_true_iff in Hv as [Ht _].
  unfold after_check. rewrite Ht. reflexivity.
Qed.

Lemma credentials_set_true p :
  credentials_set p = true ->
  negb (truthy (dict_get (plugin_config p) "feishu_app_id"))
  || negb (truthy (dict_get (plugin_config p) "feishu_app_secret")) = false.
Proof.
  unfold credentials_set. intros H. apply andb_true_iff in H as [-> ->]. reflexivity.
Qed.

Lemma credentials_set_false p :
  credentials_set p = false ->
  negb (truthy (dict_get (plugin_config p) "feishu_app_id"))
  || negb (truthy (dict_get (plugin_config p) "feishu_app_secret")) = true.
Proof.
  unfold credentials_set. intros H. apply andb_false_iff in H as [-> | ->];
    [reflexivity | apply orb_true_r].
Qed.

Lemma get_token_unconfigured E w :
  cache_valid E w = false ->
  credentials_set (self w) = false ->
  _get_access_token E w
  = (Ok PNone, logged (LogLine WARN "❌ 飞书凭证未配置" NoArg) (after_check w)).
Proof.
  intros Hv Hc. unfold _get_access_token, bind at 1.
  rewrite cache_check_eq, Hv. unfold bind at 1, get_self.
  rewrite self_after_check, (credentials_set_false _ Hc). reflexivity.
Qed.

Lemma session_or_new_eq w :
  session_or_new w = (Ok (session_of w), with_session_chosen w).
Proof.
  unfold session_or_new, session_of, with_session_chosen, bind, get_self.
  destruct (_session (self w)); reflexivity.
Qed.

Lemma token_request_eq E w :
  token_request E (dict_get (plugin_config (self w)) "feishu_app_id")
                  (dict_get (plugin_config (self w)) "feishu_app_secret") w
  = match http_reply E (length (net_log w)) (token_call_of w) with
    | ConnErr msg => (Raise (RequestException msg),
                      sent (token_call_of w) (with_session_chosen w))
    | Body b => token_from_body E b (sent (token_call_of w) (with_session_chosen w))
    end.
Proof.
  unfold token_request, bind at 1. rewrite session_or_new_eq.
  fold (token_call_of w).
  unfold bind at 1, session_post, bind at 1, send, receive.
  assert (Hn : net_log (with_session_chosen w) = net_log w)
    by (unfold with_session_chosen; destruct (_session (self w)); reflexivity).
  rewrite Hn. destruct (http_reply E _ _); reflexivity.
Qed.

Lemma token_from_body_granted E b w t :
  token_granted (Body b) = Some t ->
  token_from_body E b w
  = (Ok (Some t),
     set_self (with_token_expiry (float_add (time_time E (clock_reads w)) 5400))
              (ticked (set_self (with_access_token t) w))).
Proof.
  unfold token_granted. destruct b as [msg | [ | | | | | | d]]; try discriminate.
  destruct (py_eq_zero (dict_get d "code")) eqn:Hc; [|discriminate].
  intros Ht. unfold token_from_body, resp_json, py_get, py_getitem, dict_getitem.
  unfold bind, ret, lift. rewrite Hc, Ht. reflexivity.
Qed.

Lemma token_from_body_refused E b w :
  token_granted (Body b) = None ->
  (exists e, token_from_body E b w = (Raise e, w))
  \/ (exists v, token_from_body E b w
                = (Ok None, logged (LogLine ERROR "❌ Token获取失败: {data}" (ArgVal v)) w)).
Proof.
  unfold token_granted, token_from_body, resp_json, py_get, py_getitem, dict_getitem.
  unfold bind, ret, lift, raise.
  destruct b as [msg | [ | | | | | | d]]; try (intros _; left; eexists; reflexivity).
  destruct (py_eq_zero (dict_get d "code")) eqn:Hc.
  - intros ->. left. eexists. reflexivity.
  - intros _. right. eexists. reflexivity.
Qed.

Lemma token_call_of_after_check w : token_call_of (after_check w) = token_call_of w.
Proof.
  unfold token_call_of, session_of. rewrite self_after_check.
  unfold after_check. destruct (truthy _); reflexivity.
Qed.

Lemma get_token_miss E w :
  cache_valid E w = false ->
  credentials_set (self w) = true ->
  _get_access_token E w
  = bind (try_except
            (token_request E (dict_get (plugin_config (self w)) "feishu_app_id")
                             (dict_get (plugin_config (self w)) "feishu_app_secret"))
            token_except)
         (fun r => match r with Some t => ret t | None => ret PNone end)
         (after_check w).
Proof.
  intros Hv Hc. unfold _get_access_token, bind at 1.
  rewrite cache_check_eq, Hv. unfold bind at 1, get_self.
  rewrite self_after_check, (credentials_set_true _ Hc). reflexivity.
Qed.

Lemma get_token_granted E w t :
  cache_valid E w = false ->
  credentials_set (self w) = true ->
  token_granted (http_reply E (length (net_log w)) (token_call_of w)) = Some t ->
  _get_access_token E w = (Ok t, issued E t w).
Proof.
  intros Hv Hc Hg. rewrite (get_token_miss _ _ Hv Hc).
  unfold bind, try_except.
  rewrite <- (self_after_check w), token_request_eq.
  rewrite net_log_after_check, token_call_of_after_check.
  destruct (http_reply E _ _) as [msg | b]; [discriminate|].
  rewrite (token_from_body_granted _ _ _ _ Hg). reflexivity.
Qed.

Lemma get_token_refused E w :
  cache_valid E w = false ->
  credentials_set (self w) = true ->
  token_granted (http_reply E (length (net_log w)) (token_call_of w)) = None ->
  exists ln, log_level ln = ERROR /\ _get_access_token E w = (Ok PNone, refused ln w).
Proof.
  intros Hv Hc Hg. rewrite (get_token_miss _ _ Hv Hc).
  unfold bind, try_except.
  rewrite <- (self_after_check w), token_request_eq.
  rewrite net_log_after_check, token_call_of_after_check.
  destruct (http_reply E _ _) as [msg | b].
  - eexists. split; [|reflexivity]. reflexivity.
  - destruct (token_from_body_refused E b
                (sent (token_call_of w) (with_session_chosen (after_check w))) Hg)
      as [[e ->] | [v ->]]; eexists; (split; [|reflexivity]); reflexivity.
Qed.

Lemma get_token_total E w : exists v w1, _get_access_token E w = (Ok v, w1).
Proof.
  destruct (cache_valid E w) eqn:Hv.
  - rewrite (get_token_hit _ _ Hv). eauto.
  - destruct (credentials_set (self w)) eqn:Hc.
    + destruct (token_granted (http_reply E (length (net_log w)) (token_call_of w)))
        as [t|] eqn:Hg.
      * rewrite (get_token_granted _ _ _ Hv Hc Hg). eauto.
      * destruct (get_token_refused _ _ Hv Hc Hg) as (ln & _ & ->). eauto.
    + rewrite (get_token_unconfigured _ _ Hv Hc). eauto.
Qed.

(** ** The card *)

Lemma button_ok_inv btn :
  button_ok btn = true ->
  exists label data, btn !! "text" = Some label /\ btn !! "callback_data" = Some data.
Proof.
  unfold button_ok. intros H. apply andb_true_iff in H as [H1 H2].
  apply bool_decide_eq_true in H1 as [label Hl], H2 as [data Hd]. eauto.
Qed.

Lemma render_button_ok btn label data :
  btn !! "text" = Some label ->
  btn !! "callback_data" = Some data ->
  render_button btn
  = Ok (PDict {[ "tag" := PStr "button";
                 "text" := PDict {[ "tag" := PStr "plain_text"; "content" := label ]};
                 "type" := PStr (if truthy (dict_get btn "primary")
                                 then "primary" else "default");
                 "value" := PDict {[ "type" := PStr "callback"; "data" := data ]} ]}).
Proof.
  intros Hl Hd. unfold render_button, dict_getitem, obind. rewrite Hl, Hd. reflexivity.
Qed.

Lemma skeleton_elements title text :
  card_skeleton title text !! "elements"
  = Some (PList [PDict {[ "tag" := PStr "div";
                          "text" := PDict {[ "tag" := PStr "lark_md";
                                             "content" := py_or text (PStr " ") ]} ]}]).
Proof. reflexivity. Qed.

Lemma skeleton_with_elements title text (els : list pyval) :
  <[ "elements" := PList els ]> (card_skeleton title text)
  = {[ "config" := PDict {[ "wide_screen_mode" := PBool true ]};
       "header" := PDict {[ "title" := PDict {[ "tag" := PStr "plain_text";
                                                "content" := title ]};
                            "template" := PStr "blue" ]};
       "elements" := PList els ]}.
Proof. vm_compute. reflexivity. Qed.

Lemma render_row_ok row : forall acc,
  forallb button_ok row = true ->
  exists acts, render_row row acc = Ok (acc ++ acts)
               /\ Forall2 (fun btn a => render_button btn = Ok a) row acts.
Proof.
  induction row as [|btn rest IH]; intros acc Hok.
  - exists []. rewrite app_nil_r. split; [reflexivity | constructor].
  - cbn [forallb] in Hok. apply andb_true_iff in Hok as [Hb Hrest].
    destruct (button_ok_inv _ Hb) as (label & data & Hl & Hd).
    cbn [render_row]. rewrite (render_button_ok _ _ _ Hl Hd). cbn [obind].
    match goal with
    | |- context [render_row rest ?a] => destruct (IH a Hrest) as (acts & -> & Hall)
    end.
    eexists (_ :: acts). rewrite <- app_assoc. split; [reflexivity|].
    constructor; [|exact Hall]. apply render_button_ok; assumption.
Qed.

Lemma render_rows_ok rows : forall card els,
  card !! "elements" = Some (PList els) ->
  forallb (forallb button_ok) rows = true ->
  exists blocks,
    render_rows rows card = Ok (<[ "elements" := PList (els ++ blocks) ]> card)
    /\ Forall2 action_block_of rows blocks.
Proof.
  induction rows as [|row rest IH]; intros card els Hels Hok.
  - exists []. rewrite app_nil_r, insert_id by exact Hels.
    split; [reflexivity | constructor].
  - cbn [forallb] in Hok. apply andb_true_iff in Hok as [Hrow Hrest].
    destruct (render_row_ok row [] Hrow) as (acts & Hacts & Hall).
    cbn [render_rows]. rewrite Hacts. cbn [obind app].
    unfold elements_append, dict_getitem. rewrite Hels. cbn [obind].
    edestruct (IH (<[ "elements" := PList (els ++ [PDict {[ "tag" := PStr "action"; "actions" := PList acts ]}]) ]> card))
      as (blocks & -> & Hblocks); [apply lookup_insert_eq | exact Hrest |].
    eexists (_ :: blocks). rewrite insert_insert_eq, <- app_assoc.
    split; [reflexivity|]. constructor; [|exact Hblocks].
    exists acts. split; [reflexivity | exact Hall].
Qed.

Lemma build_card_ok title text buttons :
  buttons_ok buttons = true ->
  exists blocks,
    build_card title text buttons
    = Ok {[ "config" := PDict {[ "wide_screen_mode" := PBool true ]};
            "header" := PDict {[ "title" := PDict {[ "tag" := PStr "plain_text";
                                                     "content" := title ]};
                                 "template" := PStr "blue" ]};
            "elements" :=
              PList (PDict {[ "tag" := PStr "div";
                              "text" := PDict {[ "tag" := PStr "lark_md";
                                                 "content" := py_or text (PStr " ") ]} ]}
                     :: blocks) ]}
    /\ Forall2 action_block_of (default [] buttons) blocks.
Proof.
  unfold buttons_ok, build_card. intros Hok.
  destruct buttons as [[|row rest]|]; cbn [default] in *;
    try (exists []; split; [reflexivity | constructor]).
  destruct (render_rows_ok (row :: rest) _ _ (skeleton_elements title text) Hok)
    as (blocks & -> & Hblocks).
  exists blocks. rewrite skeleton_with_elements. split; [reflexivity | exact Hblocks].
Qed.

(** ** The delivery pipeline *)

Lemma try_message_eq E token channel card w :
  let c := message_call (session_of w) token channel card in
  let r := http_reply E (length (net_log w)) c in
  exists ln,
    log_level ln = (if message_accepted r then INFO else ERROR)
    /\ try_except (message_request E token channel card) message_except w
       = (Ok (message_accepted r), message_sent c ln w).
Proof.
  intros c r. unfold try_except, message_request, bind at 1.
  rewrite session_or_new_eq. fold c.
  unfold bind at 1, session_post, bind at 1, send, receive.
  assert (Hn : net_log (with_session_chosen w) = net_log w)
    by (unfold with_session_chosen; destruct (_session (self w)); reflexivity).
  rewrite Hn. fold r. unfold message_accepted, message_sent.
  destruct r as [msg | [msg | v]].
  - eexists. split; [|reflexivity]. reflexivity.
  - eexists. split; [|reflexivity]. reflexivity.
  - destruct v; try (eexists; split; [|reflexivity]; reflexivity).
    unfold bind, resp_json, ret, lift, py_get.
    destruct (py_eq_zero (dict_get d "code")); eexists; (split; [|reflexivity]); reflexivity.
Qed.

Lemma post_message_unfold E channel title text buttons w :
  post_message E channel title text buttons w
  = match _get_access_token E w with
    | (Ok token, w1) =>
        if truthy token then
          match build_card title text buttons with
          | Ok card =>
              try_except (message_request E token channel card) message_except w1
          | Raise e => (Raise e, w1)
          end
        else (Ok false, w1)
    | (Raise e, w1) => (Raise e, w1)
    end.
Proof.
  unfold post_message, bind, lift.
  destruct (_get_access_token E w) as [[token | e] w1]; [|reflexivity].
  destruct (truthy token); [|reflexivity].
  destruct (build_card title text buttons); reflexivity.
Qed.

Lemma post_message_cases E channel title text buttons w :
  exists token w1,
    _get_access_token E w = (Ok token, w1)
    /\ ((truthy token = false
         /\ post_message E channel title text buttons w = (Ok false, w1))
        \/ (truthy token = true
            /\ exists e, build_card title text buttons = Raise e
                         /\ post_message E channel title text buttons w = (Raise e, w1))
        \/ (truthy token = true
            /\ exists card ln,
                 let c := message_call (session_of w1) token channel card in
                 let r := http_reply E (length (net_log w1)) c in
                 build_card title text buttons = Ok card
                 /\ log_level ln = (if message_accepted r then INFO else ERROR)
                 /\ post_message E channel title text buttons w
                    = (Ok (message_accepted r), message_sent c ln w1))).
Proof.
  destruct (get_token_total E w) as (token & w1 & Ht).
  exists token, w1. split; [exact Ht|].
  rewrite post_message_unfold, Ht.
  destruct (truthy token) eqn:Htr; [right | left; split; reflexivity].
  destruct (build_card title text buttons) as [card | e].
  - right. split; [reflexivity|].
    destruct (try_message_eq E token channel card w1) as (ln & Hl & Heq).
    exists card, ln. cbn zeta. rewrite Heq. auto.
  - left. split; [reflexivity|]. exists e. auto.
Qed.

(** ** Claims *)

(** C1, counterexample: with a token at hand, a row holding a button
    dictionary without the key [text] makes [post_message] raise [KeyError];
    the loop of lines 107-117 is outside the [try]. *)
Lemma post_message_raises_on_keyless_button :
  fst (post_message (scenario 1 (reply_token (PStr "tok123")) (reply_code 0 "ok"))
         (PStr "oc_1") (PStr "Hi") (PStr "") (Some [[ ∅ ]])
         (fresh_world default_config))
  = Raise (KeyError "text").
Proof. reflexivity. Qed.

Lemma message_accepted_inv r :
  message_accepted r = true ->
  exists d, r = Body (Json (PDict d)) /\ py_eq_zero (dict_get d "code") = true.
Proof.
  unfold message_accepted.
  destruct r as [msg1 | [msg2 | [ | | | | | | d]]]; try discriminate.
  intros Hacc. exists d. split; [reflexivity | exact Hacc].
Qed.

(** C1, amended: for every channel, title and body, every environment and
    every world, when each button dictionary has the keys [text] and
    [callback_data] (buttons may be absent or empty), no exception leaves
    [post_message]: it returns [True] when it has a token and the message
    endpoint answers a JSON object with [code] 0, and [False] in every other
    case.  Without a token nothing goes to the message endpoint; a token is
    at hand only from a valid cache or from a grant of the token endpoint,
    so every failure there gives [False] too. *)
Theorem post_message_returns_bool E channel title text buttons w :
  buttons_ok buttons = true ->
  exists (token : pyval) (w1 : world) (card : pydict) (b : bool) (w' : world),
    _get_access_token E w = (Ok token, w1)
    /\ build_card title text buttons = Ok card
    /\ post_message E channel title text buttons w = (Ok b, w')
    /\ let c := message_call (session_of w1) token channel card in
       let reply := http_reply E (length (net_log w1)) c in
       b = truthy token && message_accepted reply
       /\ (b = true ->
             exists d, reply = Body (Json (PDict d))
                       /\ py_eq_zero (dict_get d "code") = true)
       /\ (truthy token = false -> w' = w1)
       /\ (truthy token = true -> net_log w' = net_log w1 ++ [c])
       /\ (truthy token = true ->
             cache_valid E w = true
             \/ token_granted (http_reply E (length (net_log w)) (token_call_of w))
                = Some token).
Proof.
  intros Hok.
  destruct (build_card_ok title text buttons Hok) as (blocks & Hcard & _).
  assert (Hfrom : forall token w1, _get_access_token E w = (Ok token, w1) ->
            truthy token = true ->
            cache_valid E w = true
            \/ token_granted (http_reply E (length (net_log w)) (token_call_of w))
               = Some token).
  { intros token w1 Hget Htr.
    destruct (cache_valid E w) eqn:Hv; [left; reflexivity | right].
    destruct (credentials_set (self w)) eqn:Hc.
    - destruct (token_granted (http_reply E (length (net_log w)) (token_call_of w)))
        as [t|] eqn:Hg.
      + rewrite (get_token_granted _ _ _ Hv Hc Hg) in Hget. congruence.
      + destruct (get_token_refused _ _ Hv Hc Hg) as (ln & _ & Heq).
        rewrite Heq in Hget. inversion Hget; subst. discriminate Htr.
    - rewrite (get_token_unconfigured _ _ Hv Hc) in Hget.
      inversion Hget; subst. discriminate Htr. }
  destruct (get_token_total E w) as (token & w1 & Hget).
  specialize (Hfrom token w1 Hget).
  eexists token, w1, _.
  rewrite post_message_unfold, Hget, Hcard.
  destruct (truthy token) eqn:Htr.
  - match goal with
    | |- context [try_except (message_request E token channel ?card) _ w1] =>
        destruct (try_message_eq E token channel card w1) as (ln & _ & ->)
    end.
    eexists _, _. split; [reflexivity|]. split; [reflexivity|]. split; [reflexivity|].
    cbn zeta. cbn [andb]. split; [reflexivity|]. split.
    + apply message_accepted_inv.
    + split; [discriminate|]. split; [|auto].
      intros _. unfold message_sent, with_session_chosen.
      destruct (_session (self w1)); reflexivity.
  - exists false, w1. split; [reflexivity|]. split; [reflexivity|]. split; [reflexivity|].
    cbn zeta. cbn [andb]. split; [reflexivity|]. split; [discriminate|].
    split; [reflexivity|]. split; [discriminate | auto].
Qed.

Lemma post_message_returns_bool_witness :
  let E := scenario 1 (reply_token (PStr "tok123")) (reply_code 0 "ok") in
  let w := fresh_world default_config in
  buttons_ok one_button = true
  /\ exists w',
       post_message E (PStr "oc_1") (PStr "Hi") (PStr "") one_button w = (Ok true, w')
       /\ map url (net_log w') = [token_url; message_url].
Proof.
  intros E w.
  split; [reflexivity|].
  destruct (post_message_returns_bool E (PStr "oc_1") (PStr "Hi") (PStr "") one_button w
              eq_refl)
    as (token & w1 & card & b & w' & Hget & Hcard & Hpost & Hb & _ & _ & Hnet & _).
  assert (Hget' : _get_access_token E w
                  = (Ok (PStr "tok123"), issued E (PStr "tok123") w)) by reflexivity.
  rewrite Hget' in Hget. inversion Hget; subst token w1.
  assert (Hcard' : build_card (PStr "Hi") (PStr "") one_button = Ok card) by exact Hcard.
  exists w'. split.
  - rewrite Hpost, Hb.
    destruct (build_card_ok (PStr "Hi") (PStr "") one_button eq_refl) as (bl & Hc2 & _).
    rewrite Hc2 in Hcard'. injection Hcard' as <-. reflexivity.
  - rewrite (Hnet eq_refl), map_app. reflexivity.
Defined.

Lemma net_log_ticked w : net_log (ticked w) = net_log w.
Proof. reflexivity. Qed.

Lemma net_log_issued E t w : net_log (issued E t w) = net_log w ++ [token_call_of w].
Proof.
  unfold issued. cbn. unfold with_session_chosen, after_check.
  destruct (_session _), (truthy _); reflexivity.
Qed.

Lemma self_issued E t w :
  self (issued E t w)
  = with_token_expiry (float_add (time_time E (clock_reads (after_check w))) 5400)
      (with_access_token t (self w)).
Proof.
  unfold issued. cbn. unfold with_session_chosen, after_check.
  destruct (truthy _); cbn; destruct (_session (self w)); reflexivity.
Qed.

Lemma net_log_refused ln w : net_log (refused ln w) = net_log w ++ [token_call_of w].
Proof.
  unfold refused. cbn. unfold with_session_chosen, after_check.
  destruct (_session _), (truthy _); reflexivity.
Qed.

Lemma self_refused ln w : self (refused ln w) = self w.
Proof.
  unfold refused. cbn. unfold with_session_chosen, after_check.
  destruct (truthy _); cbn; destruct (_session (self w)); reflexivity.
Qed.

Lemma url_token_call_of w : url (token_call_of w) = token_url.
Proof. reflexivity. Qed.

(** A miss that returns a token was granted it by the token endpoint. *)
Lemma get_token_miss_truthy E w t w1 :
  cache_valid E w = false ->
  _get_access_token E w = (Ok t, w1) ->
  truthy t = true ->
  w1 = issued E t w.
Proof.
  intros Hv Hcall Ht.
  destruct (credentials_set (self w)) eqn:Hc.
  - destruct (token_granted (http_reply E (length (net_log w)) (token_call_of w)))
      as [t'|] eqn:Hg.
    + rewrite (get_token_granted _ _ _ Hv Hc Hg) in Hcall. congruence.
    + destruct (get_token_refused _ _ Hv Hc Hg) as (ln & _ & Heq).
      rewrite Heq in Hcall. injection Hcall as <- _. discriminate.
  - rewrite (get_token_unconfigured _ _ Hv Hc) in Hcall.
    injection Hcall as <- _. discriminate.
Qed.

(** C2: when the cached token is there and the clock reads less than its
    expiry, [_get_access_token] returns that token, sends nothing and opens
    no session; hence when a first call found no valid token and obtained
    [t], a second call inside the validity window returns [t] again and the
    two calls together sent exactly one request, to the token endpoint. *)
Theorem cached_token_no_second_call E w :
  cache_valid E w = true ->
  _get_access_token E w = (Ok (_access_token (self w)), ticked w)
  /\ net_log (ticked w) = net_log w
  /\ sessions_created (ticked w) = sessions_created w
  /\ forall w0 t,
       cache_valid E w0 = false ->
       _get_access_token E w0 = (Ok t, w) ->
       truthy t = true ->
       fst (_get_access_token E w) = Ok t
       /\ net_log (snd (_get_access_token E w)) = net_log w0 ++ [token_call_of w0]
       /\ url (token_call_of w0) = token_url.
Proof.
  intros Hv. rewrite (get_token_hit _ _ Hv).
  split; [reflexivity|]. split; [reflexivity|]. split; [reflexivity|].
  intros w0 t Hv0 Hcall Ht.
  pose proof (get_token_miss_truthy _ _ _ _ Hv0 Hcall Ht) as ->.
  cbn [fst snd]. rewrite self_issued, net_log_ticked, net_log_issued.
  repeat split.
Qed.

Lemma cached_token_no_second_call_witness :
  let E := scenario 1 (reply_token (PStr "tok123")) (reply_code 0 "ok") in
  let w0 := fresh_world default_config in
  cache_valid E world_1 = true
  /\ cache_valid E w0 = false
  /\ _get_access_token E w0 = (Ok (PStr "tok123"), world_1)
  /\ fst (_get_access_token E world_1) = Ok (PStr "tok123")
  /\ net_log (snd (_get_access_token E world_1)) = [token_call_of w0].
Proof.
  intros E w0.
  assert (Hv : cache_valid E world_1 = true) by reflexivity.
  assert (Hv0 : cache_valid E w0 = false) by reflexivity.
  assert (Hc : _get_access_token E w0 = (Ok (PStr "tok123"), world_1))
    by reflexivity.
  destruct (cached_token_no_second_call E world_1 Hv) as (_ & _ & _ & Htwo).
  destruct (Htwo w0 (PStr "tok123") Hv0 Hc eq_refl) as (Hr & Hn & _).
  split; [exact Hv|]. split; [exact Hv0|]. split; [exact Hc|].
  split; [exact Hr | exact Hn].
Defined.

Lemma miss_sends_one_request E w :
  cache_valid E w = false ->
  credentials_set (self w) = true ->
  net_log (snd (_get_access_token E w)) = net_log w ++ [token_call_of w].
Proof.
  intros Hv Hc.
  destruct (token_granted (http_reply E (length (net_log w)) (token_call_of w)))
    as [t|] eqn:Hg.
  - rewrite (get_token_granted _ _ _ Hv Hc Hg). apply net_log_issued.
  - destruct (get_token_refused _ _ Hv Hc Hg) as (ln & _ & ->). apply net_log_refused.
Qed.

Lemma token_of_issued E t w : _access_token (self (issued E t w)) = t.
Proof. rewrite self_issued. reflexivity. Qed.

Lemma expiry_of_issued E t w :
  _token_expiry (self (issued E t w))
  = float_add (time_time E (clock_reads (after_check w))) 5400.
Proof. rewrite self_issued. reflexivity. Qed.





(** C4: with no valid cached token and the app identifier or secret missing
    or empty, [_get_access_token] reports the configuration warning and
    returns [None] without a request or a new session, and [post_message]
    returns [False] in that same world: nothing was sent to either
    endpoint. *)
Theorem unconfigured_no_network E w :
  cache_valid E w = false ->
  credentials_set (self w) = false ->
  let w' := logged (LogLine WARN "❌ 飞书凭证未配置" NoArg) (after_check w) in
  _get_access_token E w = (Ok PNone, w')
  /\ net_log w' = net_log w
  /\ sessions_created w' = sessions_created w
  /\ host_log w' = host_log w ++ [LogLine WARN "❌ 飞书凭证未配置" NoArg]
  /\ forall channel title text buttons,
       post_message E channel title text buttons w = (Ok false, w').
Proof.
  intros Hv Hc w'.
  pose proof (get_token_unconfigured _ _ Hv Hc) as Hget. fold w' in Hget.
  assert (Hsame : net_log w' = net_log w /\ sessions_created w' = sessions_created w
                  /\ host_log w' = host_log w ++ [LogLine WARN "❌ 飞书凭证未配置" NoArg]).
  { subst w'. unfold after_check. destruct (truthy _); repeat split. }
  destruct Hsame as (Hn & Hs & Hl).
  repeat split; try assumption.
  intros channel title text buttons. rewrite post_message_unfold, Hget. reflexivity.
Qed.

Lemma unconfigured_no_network_witness :
  let E := scenario 1 (reply_token (PStr "tok123")) (reply_code 0 "ok") in
  let w := fresh_world {[ "enabled" := PBool true; "feishu_app_id" := PStr "";
                          "feishu_app_secret" := PStr "s3cret" ]} in
  cache_valid E w = false
  /\ credentials_set (self w) = false
  /\ fst (_get_access_token E w) = Ok PNone
  /\ post_message E (PStr "oc_1") (PStr "Hi") (PStr "") one_button w
     = (Ok false, logged (LogLine WARN "❌ 飞书凭证未配置" NoArg) w)
  /\ net_log (logged (LogLine WARN "❌ 飞书凭证未配置" NoArg) w) = [].
Proof.
  intros E w.
  assert (Hv : cache_valid E w = false) by reflexivity.
  assert (Hc : credentials_set (self w) = false) by reflexivity.
  destruct (unconfigured_no_network E w Hv Hc) as (Hget & Hnet & _ & _ & Hpost).
  split; [exact Hv|]. split; [exact Hc|].
  split; [rewrite Hget; reflexivity|].
  split; [apply Hpost | exact Hnet].
Defined.

(** C5: when the token endpoint grants nothing (a transport exception, a
    non-zero code, or any other reply that is not a code-0 object with a
    token), [_get_access_token] returns [None] after one error line, leaves
    the cached token and expiry as they were, and [post_message] returns
    [False] in that same world: the only request was the one to the token
    endpoint. *)
Theorem refused_token_not_cached E w :
  cache_valid E w = false ->
  credentials_set (self w) = true ->
  token_granted (http_reply E (length (net_log w)) (token_call_of w)) = None ->
  exists ln,
    let w' := refused ln w in
    log_level ln = ERROR
    /\ _get_access_token E w = (Ok PNone, w')
    /\ _access_token (self w') = _access_token (self w)
    /\ _token_expiry (self w') = _token_expiry (self w)
    /\ net_log w' = net_log w ++ [token_call_of w]
    /\ url (token_call_of w) = token_url
    /\ forall channel title text buttons,
         post_message E channel title text buttons w = (Ok false, w').
Proof.
  intros Hv Hc Hg.
  destruct (get_token_refused _ _ Hv Hc Hg) as (ln & Hl & Hget).
  exists ln. cbn zeta. rewrite self_refused, net_log_refused.
  repeat split; try assumption.
  intros channel title text buttons. rewrite post_message_unfold, Hget. reflexivity.
Qed.

(** The two refusals the claim names. *)
Lemma refusals_grant_nothing :
  (forall msg, token_granted (ConnErr msg) = None)
  /\ (forall d, py_eq_zero (dict_get d "code") = false ->
                token_granted (Body (Json (PDict d))) = None).
Proof.
  split; [reflexivity|]. intros d Hd. unfold token_granted. rewrite Hd. reflexivity.
Qed.

Lemma refused_token_not_cached_witness :
  let E := scenario 1 (reply_code 99 "invalid app") (reply_code 0 "ok") in
  let w := fresh_world default_config in
  cache_valid E w = false
  /\ credentials_set (self w) = true
  /\ token_granted (http_reply E (length (net_log w)) (token_call_of w)) = None
  /\ exists w',
       _get_access_token E w = (Ok PNone, w')
       /\ _access_token (self w') = PNone
       /\ post_message E (PStr "oc_1") (PStr "Hi") (PStr "") one_button w = (Ok false, w')
       /\ net_log w' = [token_call_of w].
Proof.
  intros E w.
  assert (Hv : cache_valid E w = false) by reflexivity.
  assert (Hc : credentials_set (self w) = true) by reflexivity.
  assert (Hg : token_granted (http_reply E (length (net_log w)) (token_call_of w)) = None)
    by reflexivity.
  destruct (refused_token_not_cached E w Hv Hc Hg)
    as (ln & _ & Hget & Htok & _ & Hn & _ & Hpost).
  split; [exact Hv|]. split; [exact Hc|]. split; [exact Hg|].
  exists (refused ln w).
  split; [exact Hget|]. split; [exact Htok|]. split; [apply Hpost | exact Hn].
Defined.

Lemma render_button_inv btn a :
  render_button btn = Ok a ->
  exists label data,
    btn !! "text" = Some label
    /\ btn !! "callback_data" = Some data
    /\ a = PDict {[ "tag" := PStr "button";
                    "text" := PDict {[ "tag" := PStr "plain_text"; "content" := label ]};
                    "type" := PStr (if truthy (dict_get btn "primary")
                                    then "primary" else "default");
                    "value" := PDict {[ "type" := PStr "callback"; "data" := data ]} ]}.
Proof.
  unfold render_button, dict_getitem, obind.
  destruct (btn !! "text") as [label|]; [|discriminate].
  destruct (btn !! "callback_data") as [data|]; [|discriminate].
  intros [= <-]. exists label, data. auto.
Qed.

(** C6: [build_card] is a function of title, body and buttons alone.  With
    buttons that have label and callback value, the card has the title as
    plain text in its header, the body (a single space when the body is
    empty) in its first block, then one action block per row in order, each
    with one button per button of the row in order, styled [primary] when
    the emphasis flag is true and [default] when it is false or absent, and
    carrying label and callback value unchanged. *)
Theorem build_card_renders_request title text buttons :
  buttons_ok buttons = true ->
  exists blocks,
    build_card title text buttons
    = Ok {[ "config" := PDict {[ "wide_screen_mode" := PBool true ]};
            "header" := PDict {[ "title" := PDict {[ "tag" := PStr "plain_text";
                                                     "content" := title ]};
                                 "template" := PStr "blue" ]};
            "elements" :=
              PList (PDict {[ "tag" := PStr "div";
                              "text" := PDict {[ "tag" := PStr "lark_md";
                                                 "content" := if truthy text then text
                                                              else PStr " " ]} ]}
                     :: blocks) ]}
    /\ truthy (PStr "") = false
    /\ length blocks = length (default [] buttons)
    /\ (forall i row, default [] buttons !! i = Some row ->
          exists acts,
            blocks !! i = Some (PDict {[ "tag" := PStr "action";
                                         "actions" := PList acts ]})
            /\ length acts = length row
            /\ forall j btn, row !! j = Some btn ->
                 exists label data,
                   btn !! "text" = Some label
                   /\ btn !! "callback_data" = Some data
                   /\ acts !! j
                      = Some (PDict {[ "tag" := PStr "button";
                                       "text" := PDict {[ "tag" := PStr "plain_text";
                                                          "content" := label ]};
                                       "type" := PStr (if truthy (dict_get btn "primary")
                                                       then "primary" else "default");
                                       "value" := PDict {[ "type" := PStr "callback";
                                                           "data" := data ]} ]}))
    /\ (forall btn : pydict,
          (btn !! "primary" = Some (PBool true) -> truthy (dict_get btn "primary") = true)
          /\ (btn !! "primary" = Some (PBool false) -> truthy (dict_get btn "primary") = false)
          /\ (btn !! "primary" = None -> truthy (dict_get btn "primary") = false)).
Proof.
  intros Hok. destruct (build_card_ok title text buttons Hok) as (blocks & Hcard & Hall).
  exists blocks. split; [exact Hcard|]. split; [reflexivity|].
  split; [symmetry; exact (Forall2_length _ _ _ Hall)|]. split.
  - intros i row Hrow.
    destruct (Forall2_lookup_l _ _ _ _ _ Hall Hrow) as (blk & Hblk & acts & -> & Hacts).
    exists acts. split; [exact Hblk|].
    split; [symmetry; exact (Forall2_length _ _ _ Hacts)|].
    intros j btn Hbtn.
    destruct (Forall2_lookup_l _ _ _ _ _ Hacts Hbtn) as (a & Ha & Hr).
    destruct (render_button_inv _ _ Hr) as (label & data & Hl & Hd & ->).
    exists label, data. auto.
  - intros btn. unfold dict_get. repeat split; intros ->; reflexivity.
Qed.

Lemma build_card_renders_request_witness :
  buttons_ok one_button = true
  /\ exists blocks,
       length blocks = 1
       /\ build_card (PStr "Hi") (PStr "") one_button
          = Ok {[ "config" := PDict {[ "wide_screen_mode" := PBool true ]};
                  "header" := PDict {[ "title" := PDict {[ "tag" := PStr "plain_text";
                                                           "content" := PStr "Hi" ]};
                                       "template" := PStr "blue" ]};
                  "elements" :=
                    PList (PDict {[ "tag" := PStr "div";
                                    "text" := PDict {[ "tag" := PStr "lark_md";
                                                       "content" := PStr " " ]} ]}
                           :: blocks) ]}.
Proof.
  split; [reflexivity|].
  destruct (build_card_renders_request (PStr "Hi") (PStr "") one_button eq_refl)
    as (blocks & Hcard & _ & Hlen & _).
  exists blocks. split; [exact Hlen | exact Hcard].
Defined.

Lemma self_message_sent c ln w : self (message_sent c ln w) = self w.
Proof.
  unfold message_sent, with_session_chosen. cbn.
  destruct (_session (self w)); reflexivity.
Qed.

(** C7, counterexample: with no token cached, a [post_message] that the
    message endpoint rejects with code 99 returns [False] and leaves a new
    token and a new expiry in the cache. *)
Lemma post_message_refreshes_token_cache :
  let E := scenario 1 (reply_token (PStr "tok123")) (reply_code 99 "bad") in
  let w := fresh_world default_config in
  let r := post_message E (PStr "oc_1") (PStr "Hi") (PStr "") one_button w in
  fst r = Ok false
  /\ _access_token (self w) = PNone
  /\ _access_token (self (snd r)) = PStr "tok123"
  /\ (_token_expiry (self w) == 0)%Q
  /\ (_token_expiry (self (snd r)) == 6400)%Q.
Proof. repeat split. Qed.

(** C7, amended: [post_message] writes the cached token and expiry only
    through its call of [_get_access_token]: after it they are as that call
    left them.  They are as before the call when the cached token was
    valid, when the credentials are missing, and when the token endpoint
    granted nothing; they change only when that call was granted a token,
    which is then cached with its new expiry whatever the message endpoint
    answers.  A rejection by the message endpoint yields [False]. *)
Theorem post_message_leaves_token_to_get_token E channel title text buttons w :
  let w1 := snd (_get_access_token E w) in
  let w2 := snd (post_message E channel title text buttons w) in
  let unchanged := _access_token (self w2) = _access_token (self w)
                   /\ _token_expiry (self w2) = _token_expiry (self w) in
  let token_reply := http_reply E (length (net_log w)) (token_call_of w) in
  _access_token (self w2) = _access_token (self w1)
  /\ _token_expiry (self w2) = _token_expiry (self w1)
  /\ (cache_valid E w = true -> unchanged)
  /\ (cache_valid E w = false -> credentials_set (self w) = false -> unchanged)
  /\ (cache_valid E w = false -> token_granted token_reply = None -> unchanged)
  /\ (forall t,
        cache_valid E w = false ->
        credentials_set (self w) = true ->
        token_granted token_reply = Some t ->
        _access_token (self w2) = t
        /\ _token_expiry (self w2)
           = float_add (time_time E (clock_reads (after_check w))) 5400)
  /\ (forall token card,
        fst (_get_access_token E w) = Ok token ->
        truthy token = true ->
        build_card title text buttons = Ok card ->
        message_accepted
          (http_reply E (length (net_log w1))
                      (message_call (session_of w1) token channel card)) = false ->
        fst (post_message E channel title text buttons w) = Ok false).
Proof.
  intros w1 w2 unchanged token_reply.
  assert (Hself : self w2 = self w1).
  { subst w1 w2.
    destruct (post_message_cases E channel title text buttons w)
      as (token & w' & -> & [[_ ->] | [[_ (e & _ & ->)] | [_ (card & ln & _ & _ & ->)]]]);
      cbn [snd]; [reflexivity | reflexivity | apply self_message_sent]. }
  assert (Hnone : cache_valid E w = false ->
                  credentials_set (self w) = false \/ token_granted token_reply = None ->
                  self w1 = self w).
  { intros Hv Hwhy. subst w1.
    destruct (credentials_set (self w)) eqn:Hc.
    - destruct Hwhy as [Hf | Hg]; [discriminate Hf|].
      destruct (get_token_refused _ _ Hv Hc Hg) as (ln & _ & ->). apply self_refused.
    - rewrite (get_token_unconfigured _ _ Hv Hc). cbn [snd].
      apply self_after_check. }
  subst unchanged. cbv zeta. rewrite Hself.
  split; [reflexivity|]. split; [reflexivity|]. split.
  { intros Hv. subst w1. rewrite (get_token_hit _ _ Hv). split; reflexivity. }
  split; [intros Hv Hc; rewrite (Hnone Hv (or_introl Hc)); split; reflexivity|].
  split; [intros Hv Hg; rewrite (Hnone Hv (or_intror Hg)); split; reflexivity|].
  split.
  { intros t Hv Hc Hg. subst w1. rewrite (get_token_granted _ _ _ Hv Hc Hg). cbn [snd].
    rewrite token_of_issued, expiry_of_issued. split; reflexivity. }
  intros token card Htok Htr Hcard Hrej. subst w1.
  rewrite post_message_unfold.
  destruct (_get_access_token E w) as [o w'] eqn:Hget. cbn [fst snd] in *.
  subst o. rewrite Htr, Hcard.
  destruct (try_message_eq E token channel card w') as (ln & _ & ->).
  cbn [fst]. rewrite Hrej. reflexivity.
Qed.

Lemma post_message_leaves_token_to_get_token_witness :
  let E := scenario 1 (reply_code 99 "invalid app") (reply_code 99 "bad") in
  let w := cached_world (PStr "old") 500 in
  let w' := cached_world (PStr "tok123") 9999 in
  let r := post_message E (PStr "oc_1") (PStr "Hi") (PStr "") one_button w in
  let r' := post_message E (PStr "oc_1") (PStr "Hi") (PStr "") one_button w' in
  cache_valid E w = false
  /\ token_granted (http_reply E (length (net_log w)) (token_call_of w)) = None
  /\ _access_token (self (snd r)) = PStr "old"
  /\ _token_expiry (self (snd r)) = 500%Q
  /\ cache_valid E w' = true
  /\ fst r' = Ok false
  /\ _access_token (self (snd r')) = PStr "tok123"
  /\ _token_expiry (self (snd r')) = 9999%Q.
Proof.
  intros E w w' r r'.
  assert (Hv : cache_valid E w = false) by reflexivity.
  assert (Hg : token_granted (http_reply E (length (net_log w)) (token_call_of w)) = None)
    by reflexivity.
  assert (Hv' : cache_valid E w' = true) by reflexivity.
  destruct (post_message_leaves_token_to_get_token
              E (PStr "oc_1") (PStr "Hi") (PStr "") one_button w)
    as (_ & _ & _ & _ & Hstale & _).
  destruct (Hstale Hv Hg) as (Htok & Hexp).
  destruct (post_message_leaves_token_to_get_token
              E (PStr "oc_1") (PStr "Hi") (PStr "") one_button w')
    as (_ & _ & Hkeep & _ & _ & _ & Hfail).
  destruct (Hkeep Hv') as (Htok' & Hexp').
  destruct (build_card_ok (PStr "Hi") (PStr "") one_button eq_refl)
    as (blocks & Hcard & _).
  split; [exact Hv|]. split; [exact Hg|]. split; [exact Htok|]. split; [exact Hexp|].
  split; [exact Hv'|]. split; [|split; assumption].
  apply (Hfail (PStr "tok123") _ eq_refl eq_refl Hcard). reflexivity.
Defined.

(** [handle_command] *)

(** C10: for an event whose action is [send_feishu_menu], the channel is
    the event's [channel] field or else its [user] field.  When that is
    truthy, [handle_command] runs the delivery of the fixed menu to it and
    reports one line: [_get_access_token] is run, and with a token exactly
    one request follows, to the message endpoint, for that channel and with
    the fixed card (title, body, a row with media library, primary, and
    search, a row with settings); without a token nothing follows.  When no
    channel resolves the world is left untouched. *)
Theorem handle_command_sends_menu E event_data w :
  py_eq_str (dict_get event_data "action") "send_feishu_menu" = true ->
  let channel := if truthy (dict_get event_data "channel")
                 then dict_get event_data "channel"
                 else dict_get event_data "user" in
  let button (label : string) (style : string) (data : string) :=
    PDict {[ "tag" := PStr "button";
             "text" := PDict {[ "tag" := PStr "plain_text"; "content" := PStr label ]};
             "type" := PStr style;
             "value" := PDict {[ "type" := PStr "callback"; "data" := PStr data ]} ]} in
  let card : pydict :=
    {[ "config" := PDict {[ "wide_screen_mode" := PBool true ]};
       "header" :=
         PDict {[ "title" := PDict {[ "tag" := PStr "plain_text";
                                      "content" := PStr "🤖 MoviePilot 飞书助手" ]};
                  "template" := PStr "blue" ]};
       "elements" :=
         PList
           [ PDict {[ "tag" := PStr "div";
                      "text" := PDict {[ "tag" := PStr "lark_md";
                                         "content" := PStr "点击下方按钮开始操作：" ]} ]};
             PDict {[ "tag" := PStr "action";
                      "actions" := PList [ button "🎬 媒体库" "primary" "media";
                                           button "🔍 搜索" "default" "search" ] ]};
             PDict {[ "tag" := PStr "action";
                      "actions" := PList [ button "⚙️ 设置" "default" "settings" ] ]} ] ]} in
  (truthy channel = true ->
     exists (token : pyval) (w1 : world) (b : bool) (w2 : world),
       _get_access_token E w = (Ok token, w1)
       /\ post_message E channel menu_title menu_text (Some menu_buttons) w = (Ok b, w2)
       /\ handle_command E event_data w
          = (Ok tt, logged (LogLine INFO "📤 已发送菜单至 {channel}" (ArgVal channel)) w2)
       /\ (truthy token = true ->
             exists c, net_log w2 = net_log w1 ++ [c]
                       /\ url c = message_url
                       /\ via c = session_of w1
                       /\ headers c = {[ "Authorization" := HBearer token;
                                         "Content-Type" := HStr "application/json" ]}
                       /\ json c = PDict {[ "receive_id" := channel;
                                            "msg_type" := PStr "interactive";
                                            "content" := PDict card ]})
       /\ (truthy token = false -> w2 = w1))
  /\ (truthy channel = false -> handle_command E event_data w = (Ok tt, w)).
Proof.
  intros Hact channel button card.
  assert (Hch : py_or (dict_get event_data "channel") (dict_get event_data "user") = channel)
    by reflexivity.
  assert (Hcard : build_card menu_title menu_text (Some menu_buttons) = Ok card)
    by reflexivity.
  split.
  - intros Htr.
    assert (Hh : forall b w2,
              post_message E channel menu_title menu_text (Some menu_buttons) w = (Ok b, w2) ->
              handle_command E event_data w
              = (Ok tt, logged (LogLine INFO "📤 已发送菜单至 {channel}" (ArgVal channel)) w2)).
    { intros b w2 Hp. unfold handle_command. rewrite Hact, Hch, Htr.
      unfold _send_main_menu, bind. rewrite Hp. reflexivity. }
    destruct (get_token_total E w) as (token & w1 & Hget).
    exists token, w1.
    pose proof (post_message_unfold E channel menu_title menu_text (Some menu_buttons) w)
      as Hp.
    rewrite Hget, Hcard in Hp.
    destruct (truthy token) eqn:Htok.
    + destruct (try_message_eq E token channel card w1) as (ln & _ & Htry).
      rewrite Htry in Hp.
      eexists _, _. split; [exact Hget|]. split; [exact Hp|].
      split; [exact (Hh _ _ Hp)|]. split; [|discriminate].
      intros _. exists (message_call (session_of w1) token channel card).
      split; [|repeat split].
      unfold message_sent, with_session_chosen.
      destruct (_session (self w1)); reflexivity.
    + exists false, w1. split; [exact Hget|]. split; [exact Hp|].
      split; [exact (Hh _ _ Hp)|]. split; [discriminate | reflexivity].
  - intros Hfalse. unfold handle_command. rewrite Hact, Hch, Hfalse. reflexivity.
Qed.

Lemma handle_command_sends_menu_witness :
  let E := scenario 1 (reply_token (PStr "tok123")) (reply_code 0 "ok") in
  let ev : pydict := {[ "action" := PStr "send_feishu_menu"; "user" := PStr "ou_7" ]} in
  let w := pooled_world default_config in
  py_eq_str (dict_get ev "action") "send_feishu_menu" = true
  /\ exists w2 c,
       handle_command E ev w
       = (Ok tt, logged (LogLine INFO "📤 已发送菜单至 {channel}" (ArgVal (PStr "ou_7"))) w2)
       /\ last (net_log w2) = Some c
       /\ url c = message_url
       /\ dict_get (match json c with PDict d => d | _ => ∅ end) "receive_id"
          = PStr "ou_7".
Proof.
  intros E ev w.
  assert (Hact : py_eq_str (dict_get ev "action") "send_feishu_menu" = true)
    by reflexivity.
  split; [exact Hact|].
  destruct (handle_command_sends_menu E ev w Hact) as (Hsend & _).
  destruct (Hsend eq_refl) as (token & w1 & b & w2 & Hget & _ & Hh & Hreq & _).
  assert (Hget' : _get_access_token E w
                  = (Ok (PStr "tok123"), issued E (PStr "tok123") w)) by reflexivity.
  rewrite Hget' in Hget. inversion Hget; subst token w1.
  destruct (Hreq eq_refl) as (c & Hnet & Hurl & _ & _ & Hjson).
  exists w2, c. split; [exact Hh|].
  split; [rewrite Hnet; apply last_snoc|]. split; [exact Hurl|].
  rewrite Hjson. reflexivity.
Defined.

(** ** Shutdown *)

Lemma stop_eq w :
  stop w
  = (Ok tt,
     logged (LogLine INFO "⏹️ 飞书插件已停止" NoArg)
       (set_self (with_access_token PNone)
          match _session (self w) with
          | Some s => set_self (with_session None) (closed s w)
          | None => w
          end)).
Proof.
  unfold stop, bind, get_self, session_close, modify_self, log, ret.
  destruct (_session (self w)); reflexivity.
Qed.

(** C9, counterexample: after [stop] closed the pooled session 0, a
    [post_message] does not fail: it obtains a token and delivers, each
    request through a session opened on the spot (1 and 2). *)
Lemma use_after_stop_reconnects :
  let E := scenario 1 (reply_token (PStr "tok123")) (reply_code 0 "ok") in
  let w := snd (stop (pooled_world default_config)) in
  let r := post_message E (PStr "oc_1") (PStr "Hi") (PStr "") one_button w in
  sessions_closed w = [0%nat]
  /\ _session (self w) = None
  /\ fst (_get_access_token E w) = Ok (PStr "tok123")
  /\ fst r = Ok true
  /\ map via (net_log (snd r)) = [1%nat; 2%nat]
  /\ map url (net_log (snd r)) = [token_url; message_url].
Proof. repeat split. Qed.

(** C9, amended: [stop] closes the session the plugin holds exactly once
    and clears the reference and the token, and a second [stop] closes
    nothing; after that, with credentials set, [_get_access_token] sends its
    request through a session opened on the spot, not the closed one, and a
    [post_message] whose token is granted sends token and message request
    through two such sessions and returns what the message endpoint
    answered. *)
Theorem stop_closes_once_then_one_shot E w s :
  _session (self w) = Some s ->
  s < sessions_created w ->
  let w1 := snd (stop w) in
  let fresh := sessions_created w in
  let c1 := token_call fresh (dict_get (plugin_config (self w)) "feishu_app_id")
                             (dict_get (plugin_config (self w)) "feishu_app_secret") in
  fst (stop w) = Ok tt
  /\ sessions_closed w1 = sessions_closed w ++ [s]
  /\ _session (self w1) = None
  /\ _access_token (self w1) = PNone
  /\ sessions_closed (snd (stop w1)) = sessions_closed w1
  /\ (credentials_set (self w) = true ->
        net_log (snd (_get_access_token E w1)) = net_log w ++ [c1]
        /\ via c1 = fresh
        /\ fresh <> s
        /\ sessions_created (snd (_get_access_token E w1)) = S fresh)
  /\ (forall channel title text buttons token card,
        credentials_set (self w) = true ->
        token_granted (http_reply E (length (net_log w)) c1) = Some token ->
        truthy token = true ->
        build_card title text buttons = Ok card ->
        let c2 := message_call (S fresh) token channel card in
        net_log (snd (post_message E channel title text buttons w1))
        = net_log w ++ [c1; c2]
        /\ fst (post_message E channel title text buttons w1)
           = Ok (message_accepted (http_reply E (S (length (net_log w))) c2))
        /\ sessions_created (snd (post_message E channel title text buttons w1))
           = S (S fresh)).
Proof.
  intros Hs Hlt w1 fresh c1. subst w1. rewrite stop_eq, Hs. cbn [fst snd].
  set (w1 := logged _ _).
  assert (Hself : self w1 = Plugin None PNone (_token_expiry (self w))
                                   (plugin_config (self w))) by reflexivity.
  assert (Hnet : net_log w1 = net_log w) by reflexivity.
  assert (Hcre : sessions_created w1 = fresh) by reflexivity.
  assert (Hv : cache_valid E w1 = false) by (unfold cache_valid; rewrite Hself; reflexivity).
  assert (Hcall : token_call_of w1 = c1)
    by (unfold token_call_of, session_of; rewrite Hself, Hcre; reflexivity).
  assert (Hcs : credentials_set (self w1) = credentials_set (self w))
    by (unfold credentials_set; rewrite Hself; reflexivity).
  split; [reflexivity|]. split; [reflexivity|]. split; [reflexivity|].
  split; [reflexivity|]. split.
  { rewrite stop_eq, Hself. reflexivity. }
  split.
  - intros Hc. rewrite <- Hcs in Hc.
    rewrite (miss_sends_one_request _ _ Hv Hc), Hnet, Hcall.
    split; [reflexivity|]. split; [reflexivity|]. split; [unfold fresh; lia|].
    destruct (token_granted (http_reply E (length (net_log w1)) (token_call_of w1)))
      as [t|] eqn:Hg.
    + rewrite (get_token_granted _ _ _ Hv Hc Hg). reflexivity.
    + destruct (get_token_refused _ _ Hv Hc Hg) as (ln & _ & ->). reflexivity.
  - intros channel title text buttons token card Hc Hg Htr Hcard.
    set (c2 := message_call (S fresh) token channel card).
    rewrite <- Hcs in Hc. rewrite <- Hcall, <- Hnet in Hg.
    rewrite post_message_unfold, (get_token_granted _ _ _ Hv Hc Hg), Htr, Hcard.
    destruct (try_message_eq E token channel card (issued E token w1))
      as (ln & _ & ->).
    assert (Hso : session_of (issued E token w1) = S fresh) by reflexivity.
    assert (Hlen : length (net_log (issued E token w1)) = S (length (net_log w))).
    { rewrite net_log_issued, Hnet, length_app. cbn. lia. }
    rewrite Hso, Hlen. fold c2. cbn [fst snd].
    split; [|split; reflexivity].
    unfold message_sent. cbn [net_log logged sent].
    assert (Hn2 : net_log (with_session_chosen (issued E token w1))
                  = net_log w ++ [c1]).
    { unfold with_session_chosen.
      destruct (_session (self (issued E token w1)));
        [|change (net_log (opened (issued E token w1)))
            with (net_log (issued E token w1))];
        rewrite net_log_issued, Hnet, Hcall; reflexivity. }
    rewrite Hn2, <- app_assoc. reflexivity.
Qed.

Lemma stop_closes_once_then_one_shot_witness :
  let E := scenario 1 (reply_token (PStr "tok123")) (reply_code 0 "ok") in
  let w := pooled_world default_config in
  let w1 := snd (stop w) in
  _session (self w) = Some 0%nat
  /\ 0 < sessions_created w
  /\ sessions_closed w1 = [0%nat]
  /\ sessions_closed (snd (stop w1)) = [0%nat]
  /\ map via (net_log (snd (_get_access_token E w1))) = [1%nat].
Proof.
  intros E w w1. subst w1.
  assert (Hs : _session (self w) = Some 0%nat) by reflexivity.
  assert (Hlt : 0 < sessions_created w) by (cbn; lia).
  destruct (stop_closes_once_then_one_shot E w 0%nat Hs Hlt)
    as (_ & Hclosed & _ & _ & Hagain & Htoken & _).
  destruct (Htoken eq_refl) as (Hnet & _).
  split; [exact Hs|]. split; [exact Hlt|]. split; [exact Hclosed|].
  split; [rewrite Hagain; exact Hclosed|].
  rewrite Hnet. reflexivity.
Defined.

(** ** Overlapping callers *)

Lemma enter_eq E w :
  cache_valid E w = false ->
  credentials_set (self w) = true ->
  enter E w
  = (Ok (Waiting (length (net_log w)) (token_call_of w)),
     sent (token_call_of w) (with_session_chosen (after_check w))).
Proof.
  intros Hv Hc. unfold enter, bind at 1.
  rewrite cache_check_eq, Hv. unfold bind at 1, get_self.
  rewrite self_after_check, (credentials_set_true _ Hc).
  unfold bind at 1. rewrite session_or_new_eq.
  unfold bind, send, ret.
  assert (Hn : net_log (with_session_chosen (after_check w)) = net_log w).
  { unfold with_session_chosen. destruct (_session _); cbn; apply net_log_after_check. }
  rewrite Hn.
  assert (Hcall : token_call (session_of (after_check w))
                    (dict_get (plugin_config (self w)) "feishu_app_id")
                    (dict_get (plugin_config (self w)) "feishu_app_secret")
                  = token_call_of w).
  { rewrite <- token_call_of_after_check. unfold token_call_of.
    rewrite self_after_check. reflexivity. }
  rewrite Hcall. reflexivity.
Qed.

(** Run alone, the two steps of a caller are the method. *)
Lemma get_token_as_steps E w :
  _get_access_token E w
  = match enter E w with
    | (Ok (Waiting k c), w') =>
        match resume E k c w' with
        | (Ok (Returned v), w'') => (Ok v, w'')
        | (_, w'') => (Ok PNone, w'')
        end
    | (Ok (Returned v), w') => (Ok v, w')
    | (_, w') => (Ok PNone, w')
    end.
Proof.
  destruct (cache_valid E w) eqn:Hv.
  - rewrite (get_token_hit _ _ Hv). unfold enter, bind at 1.
    rewrite cache_check_eq, Hv. unfold bind, get_self, ret.
    unfold cache_valid in Hv. apply andb_true_iff in Hv as [Ht _].
    unfold after_check. rewrite Ht. reflexivity.
  - destruct (credentials_set (self w)) eqn:Hc.
    + rewrite (enter_eq _ _ Hv Hc), (get_token_miss _ _ Hv Hc).
      unfold resume, bind, try_except.
      rewrite <- (self_after_check w), token_request_eq.
      rewrite net_log_after_check, token_call_of_after_check.
      unfold receive, raise, ret.
      destruct (http_reply E _ _) as [msg | b]; [reflexivity|].
      destruct (token_from_body E b _) as [[[t|] | e] w']; reflexivity.
    + rewrite (get_token_unconfigured _ _ Hv Hc). unfold enter, bind at 1.
      rewrite cache_check_eq, Hv. unfold bind at 1, get_self.
      rewrite self_after_check, (credentials_set_false _ Hc). reflexivity.
Qed.







(** ** Further properties of the credential manager and the pipeline *)

(** The four ways [_get_access_token] ends. *)
Lemma get_token_cases E w :
  (cache_valid E w = true
   /\ _get_access_token E w = (Ok (_access_token (self w)), ticked w))
  \/ (cache_valid E w = false /\ credentials_set (self w) = false
      /\ _get_access_token E w
         = (Ok PNone, logged (LogLine WARN "❌ 飞书凭证未配置" NoArg) (after_check w)))
  \/ (exists t, cache_valid E w = false /\ credentials_set (self w) = true
                /\ _get_access_token E w = (Ok t, issued E t w))
  \/ (exists ln, cache_valid E w = false /\ credentials_set (self w) = true
                 /\ log_level ln = ERROR
                 /\ _get_access_token E w = (Ok PNone, refused ln w)).
Proof.
  destruct (cache_valid E w) eqn:Hv.
  - left. split; [reflexivity|]. apply get_token_hit, Hv.
  - destruct (credentials_set (self w)) eqn:Hc.
    + destruct (token_granted (http_reply E (length (net_log w)) (token_call_of w)))
        as [t|] eqn:Hg.
      * right; right; left. exists t. repeat split. apply get_token_granted; assumption.
      * right; right; right.
        destruct (get_token_refused _ _ Hv Hc Hg) as (ln & Hl & Heq).
        exists ln. repeat split; assumption.
    + right; left. repeat split. apply get_token_unconfigured; assumption.
Qed.


Lemma steps_on_refl w : steps_on w w.
Proof. steps_on_same. Qed.

Lemma steps_on_trans w1 w2 w3 : steps_on w1 w2 -> steps_on w2 w3 -> steps_on w1 w3.
Proof.
  intros (Hc1 & Hs1 & Hcl1 & (l1 & Hl1) & (c1 & Hn1 & Hv1))
         (Hc2 & Hs2 & Hcl2 & (l2 & Hl2) & (c2 & Hn2 & Hv2)).
  split; [congruence|]. split; [congruence|]. split; [congruence|].
  split; [exists (l1 ++ l2); rewrite Hl2, Hl1, app_assoc; reflexivity|].
  exists (c1 ++ c2). split; [rewrite Hn2, Hn1, app_assoc; reflexivity|].
  intros s Hs. destruct (Hv1 s Hs) as (Hf1 & Hk1).
  assert (Hs' : _session (self w2) = Some s) by congruence.
  destruct (Hv2 s Hs') as (Hf2 & Hk2).
  split; [apply Forall_app; split; assumption | congruence].
Qed.

Lemma steps_on_ticked w : steps_on w (ticked w).
Proof. steps_on_same. Qed.

Lemma steps_on_after_check w : steps_on w (after_check w).
Proof. unfold after_check. destruct (truthy _); steps_on_same. Qed.

Lemma steps_on_logged ln w : steps_on w (logged ln w).
Proof.
  split; [reflexivity|]. split; [reflexivity|]. split; [reflexivity|].
  split; [exists [ln]; reflexivity|].
  exists []. cbn. rewrite app_nil_r. split; [reflexivity|].
  intros s _. split; [constructor | reflexivity].
Qed.

Lemma steps_on_set_token f w :
  (forall p, plugin_config (f p) = plugin_config p) ->
  (forall p, _session (f p) = _session p) ->
  steps_on w (set_self f w).
Proof.
  intros Hc Hs. split; [apply Hc|]. split; [apply Hs|]. split; [reflexivity|].
  split; [exists []; cbn; rewrite app_nil_r; reflexivity|].
  exists []. cbn. rewrite app_nil_r. split; [reflexivity|].
  intros s _. split; [constructor | reflexivity].
Qed.

(** A request through the session [session_or_new] chose. *)
Lemma steps_on_sent c w :
  via c = session_of w -> steps_on w (sent c (with_session_chosen w)).
Proof.
  intros Hvia. unfold with_session_chosen, session_of in *.
  destruct (_session (self w)) as [s|] eqn:Hs; cbn in *.
  - split; [reflexivity|]. split; [reflexivity|]. split; [reflexivity|].
    split; [exists []; rewrite app_nil_r; reflexivity|].
    exists [c]. split; [reflexivity|]. intros s' Hs'.
    assert (s' = s) as -> by congruence.
    split; [repeat constructor; exact Hvia | reflexivity].
  - split; [reflexivity|]. split; [reflexivity|]. split; [reflexivity|].
    split; [exists []; rewrite app_nil_r; reflexivity|].
    exists [c]. split; [reflexivity|]. intros s' Hs'. congruence.
Qed.

Lemma steps_on_issued E t w : steps_on w (issued E t w).
Proof.
  unfold issued. cbn zeta.
  eapply steps_on_trans; [apply steps_on_after_check|].
  apply (steps_on_trans _ (sent (token_call_of w) (with_session_chosen (after_check w)))).
  { rewrite <- token_call_of_after_check. apply steps_on_sent. reflexivity. }
  eapply steps_on_trans; [apply (steps_on_set_token (with_access_token t)); reflexivity|].
  eapply steps_on_trans; [apply steps_on_ticked|].
  apply (steps_on_set_token (with_token_expiry _)); reflexivity.
Qed.

Lemma steps_on_refused ln w : steps_on w (refused ln w).
Proof.
  unfold refused.
  eapply steps_on_trans; [apply steps_on_after_check|].
  apply (steps_on_trans _ (sent (token_call_of w) (with_session_chosen (after_check w))));
    [|apply steps_on_logged].
  rewrite <- token_call_of_after_check. apply steps_on_sent. reflexivity.
Qed.

Lemma steps_on_message_sent c ln w :
  via c = session_of w -> steps_on w (message_sent c ln w).
Proof.
  intros Hvia. unfold message_sent.
  eapply steps_on_trans; [apply steps_on_sent, Hvia | apply steps_on_logged].
Qed.

Lemma get_token_steps_on E w : steps_on w (snd (_get_access_token E w)).
Proof.
  destruct (get_token_cases E w)
    as [(_ & ->) | [(_ & _ & ->) | [(t & _ & _ & ->) | (ln & _ & _ & _ & ->)]]];
    cbn [snd].
  - apply steps_on_ticked.
  - eapply steps_on_trans; [apply steps_on_after_check | apply steps_on_logged].
  - apply steps_on_issued.
  - apply steps_on_refused.
Qed.

Lemma post_message_steps_on E channel title text buttons w :
  steps_on w (snd (post_message E channel title text buttons w)).
Proof.
  pose proof (get_token_steps_on E w) as Hget.
  destruct (post_message_cases E channel title text buttons w)
    as (token & w1 & Ht & [[_ ->] | [[_ (e & _ & ->)] | [_ (card & ln & _ & _ & ->)]]]);
    rewrite Ht in Hget; cbn [snd] in *; try exact Hget.
  eapply steps_on_trans; [exact Hget|]. apply steps_on_message_sent. reflexivity.
Qed.

(** X1: [post_message] never changes the configuration, the session held or
    the closed sessions, and only appends to the two logs; while a session
    is held, every request it sends goes through that session and no other
    session is opened.  This holds for every reply and also when it
    raises. *)
Theorem post_message_keeps_config_and_session E channel title text buttons w :
  let w' := snd (post_message E channel title text buttons w) in
  plugin_config (self w') = plugin_config (self w)
  /\ _session (self w') = _session (self w)
  /\ sessions_closed w' = sessions_closed w
  /\ (exists lines, host_log w' = host_log w ++ lines)
  /\ exists calls,
       net_log w' = net_log w ++ calls
       /\ forall s, _session (self w) = Some s ->
            Forall (fun c => via c = s) calls
            /\ sessions_created w' = sessions_created w.
Proof. exact (post_message_steps_on E channel title text buttons w). Qed.

Lemma post_message_keeps_config_and_session_witness :
  let E := scenario 1 (reply_token (PStr "tok123")) (reply_code 0 "ok") in
  let w := pooled_world default_config in
  let w' := snd (post_message E (PStr "oc_1") (PStr "Hi") (PStr "") one_button w) in
  _session (self w) = Some 0%nat
  /\ exists calls,
       net_log w' = net_log w ++ calls
       /\ Forall (fun c => via c = 0%nat) calls
       /\ sessions_created w' = 1%nat.
Proof.
  intros E w w'.
  destruct (post_message_keeps_config_and_session
              E (PStr "oc_1") (PStr "Hi") (PStr "") one_button w)
    as (_ & _ & _ & _ & calls & Hnet & Hvia).
  destruct (Hvia 0%nat eq_refl) as (Hall & Hcr).
  split; [reflexivity|]. exists calls.
  split; [exact Hnet|]. split; [exact Hall | exact Hcr].
Defined.

Lemma net_log_message_sent c ln w : net_log (message_sent c ln w) = net_log w ++ [c].
Proof.
  unfold message_sent, with_session_chosen. destruct (_session (self w)); reflexivity.
Qed.

Lemma get_token_requests E w :
  exists pre,
    net_log (snd (_get_access_token E w)) = net_log w ++ pre
    /\ (pre = [] \/ pre = [token_call_of w])
    /\ (cache_valid E w = true -> pre = []).
Proof.
  destruct (get_token_cases E w)
    as [(Hv & ->) | [(Hv & _ & ->) | [(t & Hv & _ & ->) | (ln & Hv & _ & _ & ->)]]];
    cbn [snd].
  - exists []. rewrite app_nil_r. auto.
  - exists []. rewrite app_nil_r. cbn. rewrite net_log_after_check. auto.
  - exists [token_call_of w]. rewrite net_log_issued.
    split; [reflexivity|]. split; [auto | intros; congruence].
  - exists [token_call_of w]. rewrite net_log_refused.
    split; [reflexivity|]. split; [auto | intros; congruence].
Qed.

(** X2: [post_message] sends at most one request to each endpoint, the token
    endpoint first, and none to the token endpoint when the cached token is
    valid; it returns [True] only when its last request went to the message
    endpoint and the reply was a JSON object with [code] equal to 0. *)
Theorem post_message_request_shape E channel title text buttons w :
  let r := post_message E channel title text buttons w in
  exists calls,
    net_log (snd r) = net_log w ++ calls
    /\ (map url calls = [] \/ map url calls = [token_url]
        \/ map url calls = [message_url] \/ map url calls = [token_url; message_url])
    /\ (cache_valid E w = true -> Forall (fun c => url c = message_url) calls)
    /\ (fst r = Ok true ->
          exists c, last calls = Some c
                    /\ url c = message_url
                    /\ message_accepted
                         (http_reply E (length (net_log w) + length calls - 1) c)
                       = true).
Proof.
  intros r. subst r.
  destruct (get_token_requests E w) as (pre & Hpre & Hshape & Hhit).
  destruct (post_message_cases E channel title text buttons w)
    as (token & w1 & Ht & [[_ ->] | [[_ (e & _ & ->)] | [_ (card & ln & _ & _ & ->)]]]);
    rewrite Ht in Hpre; cbn [fst snd] in *.
  - exists pre. split; [exact Hpre|].
    split; [destruct Hshape as [-> | ->]; auto|].
    split; [intros Hv; rewrite (Hhit Hv); constructor | discriminate].
  - exists pre. split; [exact Hpre|].
    split; [destruct Hshape as [-> | ->]; auto|].
    split; [intros Hv; rewrite (Hhit Hv); constructor | discriminate].
  - set (c := message_call (session_of w1) token channel card).
    exists (pre ++ [c]).
    split; [rewrite net_log_message_sent, Hpre, app_assoc; reflexivity|].
    split; [destruct Hshape as [-> | ->]; auto|].
    split.
    + intros Hv. rewrite (Hhit Hv). repeat constructor.
    + intros [= Hacc]. exists c. rewrite last_snoc.
      split; [reflexivity|]. split; [reflexivity|].
      rewrite Hpre, length_app in Hacc. rewrite length_app. cbn [length].
      replace (length (net_log w) + (length pre + 1) - 1)
        with (length (net_log w) + length pre) by lia.
      exact Hacc.
Qed.

Lemma post_message_request_shape_witness :
  let E := scenario 1 (reply_token (PStr "tok123")) (reply_code 0 "ok") in
  let r := post_message E (PStr "oc_1") (PStr "Hi") (PStr "") one_button
                        (fresh_world default_config) in
  fst r = Ok true
  /\ exists c, last (net_log (snd r)) = Some c
               /\ url c = message_url
               /\ message_accepted (http_reply E 1 c) = true.
Proof.
  intros E r.
  destruct (post_message_request_shape
              E (PStr "oc_1") (PStr "Hi") (PStr "") one_button
              (fresh_world default_config))
    as (calls & Hnet & _ & _ & Htrue).
  assert (Hr : fst r = Ok true) by reflexivity.
  destruct (Htrue Hr) as (c & Hlast & Hurl & Hacc).
  split; [exact Hr|]. exists c.
  fold r in Hnet. rewrite Hnet. cbn [net_log fresh_world app].
  split; [exact Hlast|]. split; [exact Hurl|].
  assert (Hlen : length calls = 2%nat).
  { assert (H2 : length (net_log (snd r)) = 2%nat) by reflexivity.
    rewrite Hnet in H2. exact H2. }
  rewrite Hlen in Hacc. exact Hacc.
Defined.

(** X3: [_get_access_token] never raises; it answers with the token that is
    now stored, or with [None] having left the stored token and its expiry
    as they were. *)
Theorem get_token_returns_stored_or_none E w :
  exists v w',
    _get_access_token E w = (Ok v, w')
    /\ (v = _access_token (self w')
        \/ (v = PNone
            /\ _access_token (self w') = _access_token (self w)
            /\ _token_expiry (self w') = _token_expiry (self w))).
Proof.
  destruct (get_token_cases E w)
    as [(_ & ->) | [(_ & _ & ->) | [(t & _ & _ & ->) | (ln & _ & _ & _ & ->)]]];
    eexists _, _; (split; [reflexivity|]).
  - left. reflexivity.
  - right. cbn. rewrite self_after_check. auto.
  - left. rewrite token_of_issued. reflexivity.
  - right. rewrite self_refused. auto.
Qed.

(** A button without one of its keys stops the card. *)
Lemma render_button_bad btn :
  button_ok btn = false ->
  exists k, (k = "text" \/ k = "callback_data") /\ render_button btn = Raise (KeyError k).
Proof.
  unfold button_ok, render_button, dict_getitem, obind. intros H.
  destruct (btn !! "text") as [label|] eqn:Hl; [|eauto].
  destruct (btn !! "callback_data") as [data|] eqn:Hd; [|eauto].
  rewrite !bool_decide_eq_true_2 in H by eauto. discriminate.
Qed.

Lemma render_row_bad row : forall acc,
  forallb button_ok row = false ->
  exists k, (k = "text" \/ k = "callback_data") /\ render_row row acc = Raise (KeyError k).
Proof.
  induction row as [|btn rest IH]; intros acc Hbad; [discriminate|].
  cbn [forallb] in Hbad. cbn [render_row].
  destruct (button_ok btn) eqn:Hb.
  - destruct (button_ok_inv _ Hb) as (label & data & Hl & Hd).
    rewrite (render_button_ok _ _ _ Hl Hd). cbn [obind]. apply IH. exact Hbad.
  - destruct (render_button_bad _ Hb) as (k & Hk & ->). exists k. auto.
Qed.

Lemma render_rows_bad rows : forall card els,
  card !! "elements" = Some (PList els) ->
  forallb (forallb button_ok) rows = false ->
  exists k, (k = "text" \/ k = "callback_data")
            /\ render_rows rows card = Raise (KeyError k).
Proof.
  induction rows as [|row rest IH]; intros card els Hels Hbad; [discriminate|].
  cbn [forallb] in Hbad. cbn [render_rows].
  destruct (forallb button_ok row) eqn:Hrow.
  - destruct (render_row_ok row [] Hrow) as (acts & -> & _). cbn [obind app].
    unfold elements_append, dict_getitem. rewrite Hels. cbn [obind].
    eapply IH; [apply lookup_insert_eq | exact Hbad].
  - destruct (render_row_bad row [] Hrow) as (k & Hk & ->). exists k. auto.
Qed.

Lemma build_card_bad title text buttons :
  buttons_ok buttons = false ->
  exists k, (k = "text" \/ k = "callback_data")
            /\ build_card title text buttons = Raise (KeyError k).
Proof.
  unfold buttons_ok, build_card. intros Hbad.
  destruct buttons as [[|row rest]|]; cbn [default] in *; try discriminate.
  exact (render_rows_bad (row :: rest) _ _ (skeleton_elements title text) Hbad).
Qed.

(** X4: [post_message] raises exactly when it obtained a token and some
    button dictionary lacks [text] or [callback_data]; what it raises is the
    [KeyError] of that key, and it stops in the world [_get_access_token]
    left: nothing was sent to the message endpoint. *)
Theorem post_message_raises_iff E channel title text buttons w token w1 :
  _get_access_token E w = (Ok token, w1) ->
  let r := post_message E channel title text buttons w in
  ((exists e, fst r = Raise e) <-> truthy token = true /\ buttons_ok buttons = false)
  /\ (forall e, fst r = Raise e ->
        (e = KeyError "text" \/ e = KeyError "callback_data") /\ snd r = w1).
Proof.
  intros Hget r. subst r. rewrite post_message_unfold, Hget.
  destruct (truthy token) eqn:Htr.
  - destruct (buttons_ok buttons) eqn:Hok.
    + destruct (build_card_ok title text buttons Hok) as (blocks & -> & _).
      match goal with
      | |- context [try_except (message_request E token channel ?card) _ w1] =>
          destruct (try_message_eq E token channel card w1) as (ln & _ & ->)
      end.
      cbn [fst snd]. split.
      * split; [intros (e & He); discriminate | intros (_ & Hf); discriminate].
      * intros e He. discriminate.
    + destruct (build_card_bad title text buttons Hok) as (k & Hk & ->).
      cbn [fst snd]. split.
      * split; [auto | eauto].
      * intros e [= <-]. split; [destruct Hk as [-> | ->]; auto | reflexivity].
  - cbn [fst snd]. split.
    + split; [intros (e & He); discriminate | intros (Hf & _); discriminate].
    + intros e He. discriminate.
Qed.

Lemma post_message_raises_iff_witness :
  let E := scenario 1 (reply_token (PStr "tok123")) (reply_code 0 "ok") in
  let w := cached_world (PStr "tok123") 9999 in
  let buttons := Some [[ ({[ "text" := PStr "A" ]} : pydict) ]] in
  let r := post_message E (PStr "oc_1") (PStr "Hi") (PStr "") buttons w in
  _get_access_token E w = (Ok (PStr "tok123"), ticked w)
  /\ fst r = Raise (KeyError "callback_data")
  /\ snd r = ticked w
  /\ net_log (snd r) = [].
Proof.
  intros E w buttons r.
  assert (Hget : _get_access_token E w = (Ok (PStr "tok123"), ticked w)) by reflexivity.
  destruct (post_message_raises_iff E (PStr "oc_1") (PStr "Hi") (PStr "") buttons
              w _ _ Hget) as (Hiff & Hwhat).
  assert (Hr : fst r = Raise (KeyError "callback_data")) by reflexivity.
  destruct (Hwhat _ Hr) as (_ & Hw).
  split; [exact Hget|]. split; [exact Hr|]. split; [exact Hw|].
  fold r in Hw. rewrite Hw. reflexivity.
Defined.

(** ** Commands, continued *)

Lemma post_menu_returns E channel w :
  exists (b : bool) (w1 : world),
    post_message E channel menu_title menu_text (Some menu_buttons) w = (Ok b, w1).
Proof.
  destruct (post_message_cases E channel menu_title menu_text (Some menu_buttons) w)
    as (token & w1 & _ & [[_ ->] | [[_ (e & He & _)] | [_ (card & ln & _ & _ & ->)]]]);
    [eauto | | eauto].
  destruct (build_card_ok menu_title menu_text (Some menu_buttons) eq_refl)
    as (blocks & Hb & _).
  rewrite Hb in He. discriminate He.
Qed.

Lemma handle_command_unfold E event_data w :
  handle_command E event_data w
  = if py_eq_str (dict_get event_data "action") "send_feishu_menu" then
      let channel := py_or (dict_get event_data "channel") (dict_get event_data "user") in
      if truthy channel then
        match post_message E channel menu_title menu_text (Some menu_buttons) w with
        | (Ok _, w1) =>
            (Ok tt, logged (LogLine INFO "📤 已发送菜单至 {channel}" (ArgVal channel)) w1)
        | (Raise e, w1) => (Raise e, w1)
        end
      else (Ok tt, w)
    else (Ok tt, w).
Proof.
  unfold handle_command.
  destruct (py_eq_str _ _); [|reflexivity]. cbn zeta.
  destruct (truthy _); [|reflexivity].
  unfold _send_main_menu, bind, log, ret.
  destruct (post_message E _ _ _ _ w) as [[b | e] w1]; reflexivity.
Qed.

(** X5: [handle_command] never raises, whatever the event holds and whatever
    the endpoints answer; an event whose action is not the string
    [send_feishu_menu] (absent, another string, not a string) leaves the
    world as it is: no line, no request. *)
Theorem handle_command_never_raises E event_data w :
  fst (handle_command E event_data w) = Ok tt
  /\ (py_eq_str (dict_get event_data "action") "send_feishu_menu" = false ->
        snd (handle_command E event_data w) = w).
Proof.
  rewrite handle_command_unfold.
  destruct (py_eq_str _ _); [|split; reflexivity]. cbn zeta.
  split; [|discriminate].
  destruct (truthy _); [|reflexivity].
  destruct (post_menu_returns E
              (py_or (dict_get event_data "channel") (dict_get event_data "user")) w)
    as (b & w1 & ->).
  reflexivity.
Qed.

Lemma handle_command_never_raises_witness :
  let E := scenario 1 (ConnErr "timed out") (ConnErr "timed out") in
  let w := pooled_world default_config in
  let ev : pydict := {[ "action" := PStr "restart"; "channel" := PStr "oc_1" ]} in
  py_eq_str (dict_get ev "action") "send_feishu_menu" = false
  /\ handle_command E ev w = (Ok tt, w).
Proof.
  intros E w ev.
  assert (Hother : py_eq_str (dict_get ev "action") "send_feishu_menu" = false)
    by reflexivity.
  destruct (handle_command_never_raises E ev w) as (Hok & Hsame).
  split; [exact Hother|].
  specialize (Hsame Hother).
  destruct (handle_command E ev w) as [o w']. cbn [fst snd] in *. congruence.
Defined.

(** X6: once the action matches and a channel resolves, [handle_command]
    reports "menu sent" as its last line whatever [post_message] returned:
    also when the delivery failed, for instance with no credentials, where
    the line follows the configuration warning and nothing was sent. *)
Theorem handle_command_reports_sent_anyway E event_data w :
  py_eq_str (dict_get event_data "action") "send_feishu_menu" = true ->
  let channel := py_or (dict_get event_data "channel") (dict_get event_data "user") in
  truthy channel = true ->
  let w' := snd (handle_command E event_data w) in
  let sent_line := LogLine INFO "📤 已发送菜单至 {channel}" (ArgVal channel) in
  last (host_log w') = Some sent_line
  /\ (cache_valid E w = false -> credentials_set (self w) = false ->
        fst (post_message E channel menu_title menu_text (Some menu_buttons) w) = Ok false
        /\ host_log w' = host_log w ++ [LogLine WARN "❌ 飞书凭证未配置" NoArg; sent_line]
        /\ net_log w' = net_log w).
Proof.
  intros Hact channel Hch w' sent_line. subst w'.
  rewrite handle_command_unfold, Hact. cbn zeta. fold channel. rewrite Hch.
  split.
  - destruct (post_menu_returns E channel w) as (b & w1 & ->). cbn [snd].
    apply last_snoc.
  - intros Hv Hc. rewrite post_message_unfold, (get_token_unconfigured _ _ Hv Hc).
    cbn [truthy fst snd]. split; [reflexivity|].
    unfold after_check.
    destruct (truthy (_access_token (self w))); cbn; rewrite <- ?app_assoc; auto.
Qed.

Lemma handle_command_reports_sent_anyway_witness :
  let E := scenario 1 (reply_token (PStr "tok123")) (reply_code 0 "ok") in
  let w := fresh_world {[ "enabled" := PBool true ]} in
  let ev : pydict := {[ "action" := PStr "send_feishu_menu"; "user" := PStr "ou_7" ]} in
  py_eq_str (dict_get ev "action") "send_feishu_menu" = true
  /\ truthy (py_or (dict_get ev "channel") (dict_get ev "user")) = true
  /\ host_log (snd (handle_command E ev w))
     = [ LogLine WARN "❌ 飞书凭证未配置" NoArg;
         LogLine INFO "📤 已发送菜单至 {channel}" (ArgVal (PStr "ou_7")) ]
  /\ net_log (snd (handle_command E ev w)) = [].
Proof.
  intros E w ev.
  assert (Hact : py_eq_str (dict_get ev "action") "send_feishu_menu" = true)
    by reflexivity.
  assert (Hch : truthy (py_or (dict_get ev "channel") (dict_get ev "user")) = true)
    by reflexivity.
  destruct (handle_command_reports_sent_anyway E ev w Hact Hch) as (_ & Hfail).
  destruct (Hfail eq_refl eq_refl) as (_ & Hlog & Hnet).
  split; [exact Hact|]. split; [exact Hch|]. split; [exact Hlog | exact Hnet].
Defined.

(** ** Configuration changes *)

Lemma update_config_eq config w :
  update_config config w
  = (Ok tt,
     let w1 := set_self (with_token_expiry 0)
                 (set_self (with_access_token PNone)
                    (set_config (merged_config w config) w)) in
     if py_eq (dict_get config "enabled") (dict_get (plugin_config (self w)) "enabled")
     then w1
     else logged (LogLine INFO "🔄 插件状态变更: {'启用' if config.get('enabled') else '禁用'}"
                    (ArgVal (PStr (if truthy (dict_get config "enabled")
                                   then "启用" else "禁用")))) w1).
Proof.
  unfold update_config, bind, get_self, modify_self, log, ret. cbn zeta.
  destruct (py_eq _ _); reflexivity.
Qed.

Lemma lookup_dict_update (d other : pydict) k :
  dict_update d other !! k = match other !! k with
                             | Some v => Some v
                             | None => d !! k
                             end.
Proof.
  unfold dict_update. destruct (other !! k) as [v|] eqn:Hk.
  - apply lookup_union_Some_l. exact Hk.
  - apply lookup_union_r. exact Hk.
Qed.

(** X7: [update_config] merges the new entries over the old ones (an entry
    of [config] wins, the others stay), and drops the cached token: after it
    no clock reading makes the cache valid, so with credentials set the next
    [_get_access_token] sends a request even if a valid token was cached
    before.  It sends nothing itself and leaves the session alone. *)
Theorem update_config_drops_token E config w :
  let w' := snd (update_config config w) in
  fst (update_config config w) = Ok tt
  /\ (forall k, plugin_config (self w') !! k
                = match config !! k with
                  | Some v => Some v
                  | None => plugin_config (self w) !! k
                  end)
  /\ _access_token (self w') = PNone
  /\ _token_expiry (self w') = 0%Q
  /\ (forall E', cache_valid E' w' = false)
  /\ _session (self w') = _session (self w)
  /\ net_log w' = net_log w
  /\ sessions_created w' = sessions_created w
  /\ sessions_closed w' = sessions_closed w
  /\ (credentials_set (self w') = true ->
        net_log (snd (_get_access_token E w')) = net_log w ++ [token_call_of w']).
Proof.
  intros w'. subst w'. rewrite update_config_eq. cbn [fst snd].
  set (w1 := set_self _ _).
  assert (Hw : forall w2, (w2 = w1 \/ exists ln, w2 = logged ln w1) ->
     (forall k, plugin_config (self w2) !! k
                = match config !! k with
                  | Some v => Some v
                  | None => plugin_config (self w) !! k
                  end)
     /\ _access_token (self w2) = PNone
     /\ _token_expiry (self w2) = 0%Q
     /\ (forall E', cache_valid E' w2 = false)
     /\ _session (self w2) = _session (self w)
     /\ net_log w2 = net_log w
     /\ sessions_created w2 = sessions_created w
     /\ sessions_closed w2 = sessions_closed w
     /\ (credentials_set (self w2) = true ->
           net_log (snd (_get_access_token E w2)) = net_log w ++ [token_call_of w2])).
  { intros w2 Hw2.
    assert (Hself : self w2 = self w1) by (destruct Hw2 as [-> | (ln & ->)]; reflexivity).
    assert (Hnet : net_log w2 = net_log w) by (destruct Hw2 as [-> | (ln & ->)]; reflexivity).
    assert (Hcv : forall E', cache_valid E' w2 = false)
      by (intros E'; unfold cache_valid; rewrite Hself; reflexivity).
    split; [intros k; rewrite Hself; apply lookup_dict_update|].
    split; [rewrite Hself; reflexivity|]. split; [rewrite Hself; reflexivity|].
    split; [exact Hcv|]. split; [rewrite Hself; reflexivity|].
    split; [exact Hnet|].
    split; [destruct Hw2 as [-> | (ln & ->)]; reflexivity|].
    split; [destruct Hw2 as [-> | (ln & ->)]; reflexivity|].
    intros Hc. rewrite (miss_sends_one_request _ _ (Hcv E) Hc), Hnet. reflexivity. }
  split; [reflexivity|].
  apply Hw. destruct (py_eq _ _); [left; reflexivity | right; eauto].
Qed.

Lemma update_config_drops_token_witness :
  let E := scenario 1 (reply_token (PStr "new")) (reply_code 0 "ok") in
  let w := cached_world (PStr "tok123") 9999 in
  let w' := snd (update_config {[ "feishu_app_secret" := PStr "rotated" ]} w) in
  cache_valid E w = true
  /\ credentials_set (self w') = true
  /\ cache_valid E w' = false
  /\ dict_get (plugin_config (self w')) "feishu_app_secret" = PStr "rotated"
  /\ map url (net_log (snd (_get_access_token E w'))) = [token_url].
Proof.
  intros E w w'.
  destruct (update_config_drops_token E {[ "feishu_app_secret" := PStr "rotated" ]} w)
    as (_ & Hcfg & _ & _ & Hcv & _ & _ & _ & _ & Hnext).
  assert (Hc : credentials_set (self w') = true) by reflexivity.
  split; [reflexivity|]. split; [exact Hc|]. split; [apply Hcv|].
  split; [unfold dict_get; fold w' in Hcfg; rewrite Hcfg; reflexivity|].
  fold w' in Hnext. rewrite (Hnext Hc). reflexivity.
Defined.

Lemma py_eq_none_l v : py_eq PNone v = match v with PNone => true | _ => false end.
Proof. destruct v; reflexivity. Qed.

(** X8: [update_config] reports a state change exactly when
    [config.get("enabled")] differs from the old [enabled].  A [config]
    without the key [enabled] is thus reported as "disabled" whenever
    [enabled] was set before, although the merged [enabled] is unchanged. *)
Theorem update_config_reports_missing_enabled config w :
  let old := dict_get (plugin_config (self w)) "enabled" in
  let w' := snd (update_config config w) in
  (py_eq (dict_get config "enabled") old = true -> host_log w' = host_log w)
  /\ (config !! "enabled" = None -> old <> PNone ->
        host_log w'
        = host_log w
          ++ [LogLine INFO "🔄 插件状态变更: {'启用' if config.get('enabled') else '禁用'}"
                      (ArgVal (PStr "禁用"))]
        /\ dict_get (plugin_config (self w')) "enabled" = old).
Proof.
  intros old w'. subst w'. rewrite update_config_eq. cbn [snd]. fold old. split.
  - intros ->. reflexivity.
  - intros Hnone Hold.
    assert (Hget : dict_get config "enabled" = PNone)
      by (unfold dict_get; rewrite Hnone; reflexivity).
    rewrite Hget, py_eq_none_l.
    destruct old eqn:Ho; try congruence; cbn [truthy].
    all: split; [reflexivity|].
    all: unfold dict_get; cbn [logged self set_self set_config with_token_expiry
                               with_access_token with_config plugin_config];
      unfold merged_config; rewrite lookup_dict_update, Hnone;
      fold (dict_get (plugin_config (self w)) "enabled"); exact Ho.
Qed.

Lemma update_config_reports_missing_enabled_witness :
  let w := pooled_world default_config in
  let config : pydict := {[ "feishu_app_secret" := PStr "rotated" ]} in
  let w' := snd (update_config config w) in
  config !! "enabled" = None
  /\ dict_get (plugin_config (self w)) "enabled" <> PNone
  /\ host_log w'
     = [LogLine INFO "🔄 插件状态变更: {'启用' if config.get('enabled') else '禁用'}"
                (ArgVal (PStr "禁用"))]
  /\ dict_get (plugin_config (self w')) "enabled" = PBool true.
Proof.
  intros w config w'.
  assert (Hnone : config !! "enabled" = None) by reflexivity.
  assert (Hold : dict_get (plugin_config (self w)) "enabled" <> PNone) by discriminate.
  destruct (update_config_reports_missing_enabled config w) as (_ & Hq).
  destruct (Hq Hnone Hold) as (Hlog & Hen).
  split; [exact Hnone|]. split; [exact Hold|]. split; [exact Hlog | exact Hen].
Defined.

(** ** Initialisation *)

Lemma dict_update_empty (d : pydict) : dict_update d ∅ = d.
Proof.
  unfold dict_update. apply map_eq. intros k.
  rewrite lookup_union_r by apply lookup_empty. reflexivity.
Qed.

(** The configuration [init_plugin] works with. *)
Lemma init_plugin_config config w :
  plugin_config
    (self match config with
          | Some c =>
              if truthy (PDict c)
              then snd (modify_self
                          (fun p => with_config (dict_update (plugin_config p) c) p) w)
              else w
          | None => w
          end)
  = merged_config w (default ∅ config).
Proof.
  unfold merged_config.
  destruct config as [c|]; cbn [default]; [|symmetry; apply dict_update_empty].
  cbn [truthy]. destruct (bool_decide (c = ∅)) eqn:Hc; cbn [negb]; [|reflexivity].
  apply bool_decide_eq_true in Hc. subst c. symmetry. apply dict_update_empty.
Qed.

Lemma set_config_same w : set_config (plugin_config (self w)) w = w.
Proof. destruct w as [[s t e c] r n cl nl hl]. reflexivity. Qed.

Lemma init_plugin_eq config w :
  let cfg := merged_config w (default ∅ config) in
  let w1 := set_config cfg w in
  let w2 :=
    if truthy (dict_get_or cfg "use_long_connection" (PBool true))
       && match _session (self w) with Some _ => false | None => true end
    then logged (LogLine INFO "🔌 长连接会话已初始化 (Keep-Alive + 连接池)" NoArg)
           (set_self (with_session (Some (sessions_created w))) (opened w1))
    else w1 in
  init_plugin config w
  = match py_slice10 (dict_get cfg "feishu_app_id") with
    | inl e => (inl e, w2)
    | inr shown =>
        (inr tt,
         logged (LogLine INFO "🎉 飞书插件初始化成功 | AppID: {app_id[:10]}..."
                         (ArgVal shown)) w2)
    end.
Proof.
  intros cfg w1 w2. unfold init_plugin.
  set (w0 := match config with Some c => _ | None => w end).
  assert (Hw0 : w0 = w1).
  { subst w0 w1 cfg. unfold merged_config.
    destruct config as [c|]; cbn [default];
      [|rewrite dict_update_empty; symmetry; apply set_config_same].
    cbn [truthy]. destruct (bool_decide (c = ∅)) eqn:Hc; cbn [negb]; [|reflexivity].
    apply bool_decide_eq_true in Hc. subst c.
    rewrite dict_update_empty. symmetry. apply set_config_same. }
  rewrite Hw0. clearbody w0. subst w2.
  change (plugin_config (self w1)) with cfg.
  change (_session (self w1)) with (_session (self w)).
  destruct (truthy (dict_get_or cfg "use_long_connection" (PBool true))
            && match _session (self w) with Some _ => false | None => true end);
    reflexivity.
Qed.

(** X9: [init_plugin] sends no request and closes nothing, whatever it is
    given and also when it raises.  It leaves a session that is held alone;
    when none is held it opens exactly one if the merged
    [use_long_connection] (absent counts as [True]) is truthy, and none
    otherwise.  So repeated calls never hold more than one session. *)
Theorem init_plugin_opens_at_most_one_session config w :
  let w' := snd (init_plugin config w) in
  let cfg := merged_config w (default ∅ config) in
  net_log w' = net_log w
  /\ sessions_closed w' = sessions_closed w
  /\ _access_token (self w') = _access_token (self w)
  /\ _token_expiry (self w') = _token_expiry (self w)
  /\ plugin_config (self w') = cfg
  /\ (forall s, _session (self w) = Some s ->
        _session (self w') = Some s /\ sessions_created w' = sessions_created w)
  /\ (_session (self w) = None ->
        if truthy (dict_get_or cfg "use_long_connection" (PBool true))
        then _session (self w') = Some (sessions_created w)
             /\ sessions_created w' = S (sessions_created w)
        else _session (self w') = None
             /\ sessions_created w' = sessions_created w).
Proof.
  intros w' cfg. subst w'. rewrite init_plugin_eq. fold cfg.
  destruct (_session (self w)) as [s|] eqn:Hs.
  - rewrite andb_false_r.
    destruct (py_slice10 _); cbn [snd];
      (repeat (split; [reflexivity|]));
      (split; [intros s' [= <-]; split; [exact Hs | reflexivity] | discriminate]).
  - rewrite andb_true_r.
    destruct (truthy (dict_get_or cfg "use_long_connection" (PBool true)));
      destruct (py_slice10 _); cbn [snd];
      (repeat (split; [reflexivity|]));
      (split; [discriminate | intros _; split; [try exact Hs; reflexivity | reflexivity]]).
Qed.

Lemma init_plugin_opens_at_most_one_session_witness :
  let w1 := snd (init_plugin None (fresh_world default_config)) in
  let w2 := snd (init_plugin (Some {[ "enabled" := PBool false ]}) w1) in
  _session (self (fresh_world default_config)) = None
  /\ _session (self w1) = Some 0%nat
  /\ _session (self w2) = Some 0%nat
  /\ sessions_created w2 = 1%nat
  /\ net_log w2 = [].
Proof.
  intros w1 w2. subst w2.
  destruct (init_plugin_opens_at_most_one_session None (fresh_world default_config))
    as (Hn1 & _ & _ & _ & _ & _ & Hopen).
  fold w1 in Hn1, Hopen.
  destruct (Hopen eq_refl) as (Hs1 & Hc1).
  destruct (init_plugin_opens_at_most_one_session
              (Some {[ "enabled" := PBool false ]}) w1)
    as (Hn2 & _ & _ & _ & _ & Hheld & _).
  destruct (Hheld 0%nat Hs1) as (Hs2 & Hc2).
  split; [reflexivity|]. split; [exact Hs1|]. split; [exact Hs2|].
  split; [rewrite Hc2; exact Hc1|].
  rewrite Hn2. exact Hn1.
Defined.

(** X10: when the merged [feishu_app_id] cannot be sliced ([None] or absent,
    a number, a boolean, a dictionary), [init_plugin] raises at its last
    line: the success line is not reported, while the configuration stays
    merged and the session it has just opened stays held. *)
Theorem init_plugin_raises_after_effects config w e :
  let cfg := merged_config w (default ∅ config) in
  py_slice10 (dict_get cfg "feishu_app_id") = inl e ->
  let w' := snd (init_plugin config w) in
  fst (init_plugin config w) = inl e
  /\ plugin_config (self w') = cfg
  /\ (_session (self w) = None ->
      truthy (dict_get_or cfg "use_long_connection" (PBool true)) = true ->
        _session (self w') = Some (sessions_created w)
        /\ host_log w'
           = host_log w ++ [LogLine INFO "🔌 长连接会话已初始化 (Keep-Alive + 连接池)" NoArg])
  /\ (dict_get cfg "feishu_app_id" = PNone -> e = NotSubscriptable "NoneType").
Proof.
  intros cfg He w'. subst w'. rewrite init_plugin_eq. fold cfg. rewrite He.
  cbn [fst snd]. split; [reflexivity|]. split.
  - destruct (_ && _); reflexivity.
  - split.
    + intros Hs Hl. rewrite Hs, Hl. split; reflexivity.
    + intros Hn. rewrite Hn in He. cbn in He. congruence.
Qed.

Lemma init_plugin_raises_after_effects_witness :
  let w := fresh_world default_config in
  let config : option pydict := Some {[ "feishu_app_id" := PNone ]} in
  let w' := snd (init_plugin config w) in
  py_slice10 (dict_get (merged_config w (default ∅ config)) "feishu_app_id")
  = inl (NotSubscriptable "NoneType")
  /\ fst (init_plugin config w) = inl (NotSubscriptable "NoneType")
  /\ _session (self w') = Some 0%nat
  /\ dict_get (plugin_config (self w')) "feishu_app_id" = PNone.
Proof.
  intros w config w'.
  assert (He : py_slice10 (dict_get (merged_config w (default ∅ config)) "feishu_app_id")
               = inl (NotSubscriptable "NoneType")) by reflexivity.
  destruct (init_plugin_raises_after_effects config w _ He) as (Hr & Hcfg & Hsess & _).
  destruct (Hsess eq_refl eq_refl) as (Hs & _).
  split; [exact He|]. split; [exact Hr|]. split; [exact Hs|].
  fold w' in Hcfg. rewrite Hcfg. reflexivity.
Defined.

Lemma take_chars_prefix n : forall s, exists rest, s = (take_chars n s ++ rest)%string.
Proof.
  intros s. revert n. induction s as [|c s IH]; intros n; [exists ""; reflexivity|].
  cbn [take_chars]. destruct (is_continuation c).
  - destruct (IH n) as (rest & Hr). exists rest.
    change (String c s = String c (take_chars n s ++ rest)%string).
    f_equal. exact Hr.
  - destruct n as [|n]; [exists (String c s); reflexivity|].
    destruct (IH n) as (rest & Hr). exists rest.
    change (String c s = String c (take_chars n s ++ rest)%string).
    f_equal. exact Hr.
Qed.

Lemma take_chars_starts n : forall s,
  length (filter (fun c => is_continuation c = false)
                 (list_ascii_of_string (take_chars n s))) <= n.
Proof.
  intros s. revert n. induction s as [|c s IH]; intros n; [cbn; lia|].
  cbn [take_chars]. destruct (is_continuation c) eqn:Hc.
  - cbn [list_ascii_of_string]. rewrite filter_cons_False by congruence. apply IH.
  - destruct n as [|n]; [cbn; lia|].
    cbn [list_ascii_of_string]. rewrite filter_cons_True by exact Hc.
    cbn [length]. specialize (IH n). lia.
Qed.

(** X11: with a string as merged [feishu_app_id], [init_plugin] succeeds and
    its last line shows the identifier cut after 10 characters: a prefix of
    it in which at most 10 characters start. *)
Theorem init_plugin_shows_ten_characters config w app_id :
  dict_get (merged_config w (default ∅ config)) "feishu_app_id" = PStr app_id ->
  let shown := take_chars 10 app_id in
  fst (init_plugin config w) = inr tt
  /\ last (host_log (snd (init_plugin config w)))
     = Some (LogLine INFO "🎉 飞书插件初始化成功 | AppID: {app_id[:10]}..."
                     (ArgVal (PStr shown)))
  /\ (exists rest, app_id = (shown ++ rest)%string)
  /\ length (filter (fun c => is_continuation c = false)
                    (list_ascii_of_string shown)) <= 10.
Proof.
  intros Hid shown. rewrite init_plugin_eq, Hid. cbn [py_slice10 fst snd].
  split; [reflexivity|]. split; [apply last_snoc|].
  split; [apply take_chars_prefix | apply take_chars_starts].
Qed.

Lemma init_plugin_shows_ten_characters_witness :
  let w := fresh_world default_config in
  dict_get (merged_config w (default ∅ None)) "feishu_app_id"
  = PStr "cli_a90f0e54aab05bde"
  /\ fst (init_plugin None w) = inr tt
  /\ last (host_log (snd (init_plugin None w)))
     = Some (LogLine INFO "🎉 飞书插件初始化成功 | AppID: {app_id[:10]}..."
                     (ArgVal (PStr "cli_a90f0e"))).
Proof.
  intros w.
  assert (Hid : dict_get (merged_config w (default ∅ None)) "feishu_app_id"
                = PStr "cli_a90f0e54aab05bde") by reflexivity.
  destruct (init_plugin_shows_ten_characters None w _ Hid) as (Hr & Hlast & _).
  split; [exact Hid|]. split; [exact Hr | exact Hlast].
Defined.

(** ** State and page *)

(** X12: [get_state] changes nothing and answers [True] exactly when
    [enabled] and both credentials are truthy; then a [_get_access_token]
    that finds no valid cached token sends its request and never stops at
    the configuration warning. *)
Theorem get_state_true_means_requested E w :
  snd (get_state w) = w
  /\ (fst (get_state w) = Ok true
      <-> truthy (dict_get (plugin_config (self w)) "enabled") = true
          /\ credentials_set (self w) = true)
  /\ (fst (get_state w) = Ok true -> cache_valid E w = false ->
        net_log (snd (_get_access_token E w)) = net_log w ++ [token_call_of w]).
Proof.
  assert (Hiff : fst (get_state w) = Ok true
                 <-> truthy (dict_get (plugin_config (self w)) "enabled") = true
                     /\ credentials_set (self w) = true).
  { unfold get_state, bind, get_self, ret, credentials_set, py_and. cbn [fst].
    destruct (truthy (dict_get (plugin_config (self w)) "enabled")) eqn:He;
      [|rewrite He; split; [discriminate | intros (Hf & _); discriminate]].
    destruct (truthy (dict_get (plugin_config (self w)) "feishu_app_id")) eqn:Hi;
      [|rewrite Hi; split; [discriminate | intros (_ & Hf); discriminate]].
    cbn [andb]. split; [intros [= ->]; auto | intros (_ & ->); reflexivity]. }
  split; [reflexivity|]. split; [exact Hiff|].
  intros Ht Hv. apply Hiff in Ht as (_ & Hc). apply miss_sends_one_request; assumption.
Qed.

Lemma get_state_true_means_requested_witness :
  let E := scenario 1 (reply_token (PStr "tok123")) (reply_code 0 "ok") in
  let w := fresh_world default_config in
  fst (get_state w) = Ok true
  /\ cache_valid E w = false
  /\ net_log (snd (_get_access_token E w)) = [token_call_of w].
Proof.
  intros E w.
  destruct (get_state_true_means_requested E w) as (_ & _ & Hreq).
  assert (Ht : fst (get_state w) = Ok true) by reflexivity.
  split; [exact Ht|]. split; [reflexivity|]. exact (Hreq Ht eq_refl).
Defined.

Lemma page_value_eq w :
  exists page,
    get_page w = (Ok page, w)
    /\ page_value page "enabled"
       = Some (dict_get_or (plugin_config (self w)) "enabled" (PBool true))
    /\ page_value page "feishu_app_id"
       = Some (dict_get_or (plugin_config (self w)) "feishu_app_id" (PStr ""))
    /\ page_value page "feishu_app_secret"
       = Some (dict_get_or (plugin_config (self w)) "feishu_app_secret" (PStr ""))
    /\ page_value page "use_long_connection"
       = Some (dict_get_or (plugin_config (self w)) "use_long_connection" (PBool true)).
Proof.
  eexists. split; [reflexivity|]. repeat split.
Qed.

(** X13: [get_page] changes nothing; after [update_config] it shows, for
    each of its four keys, the value [config] gave, else the value the
    configuration had, else the default of that key ([True] for the two
    switches, the empty string for the two inputs). *)
Theorem page_shows_updated_config config w :
  let w' := snd (update_config config w) in
  let shown (k : string) (dflt : pyval) :=
    match config !! k with
    | Some v => v
    | None => dict_get_or (plugin_config (self w)) k dflt
    end in
  exists page,
    get_page w' = (Ok page, w')
    /\ page_value page "enabled" = Some (shown "enabled" (PBool true))
    /\ page_value page "feishu_app_id" = Some (shown "feishu_app_id" (PStr ""))
    /\ page_value page "feishu_app_secret" = Some (shown "feishu_app_secret" (PStr ""))
    /\ page_value page "use_long_connection"
       = Some (shown "use_long_connection" (PBool true)).
Proof.
  intros w' shown.
  destruct (page_value_eq w') as (page & Hp & H1 & H2 & H3 & H4).
  assert (Hcfg : forall k dflt,
            dict_get_or (plugin_config (self w')) k dflt = shown k dflt).
  { intros k dflt. subst w' shown. rewrite update_config_eq. cbn [snd].
    unfold dict_get_or.
    assert (Hl : forall w2 ln, plugin_config (self (logged ln w2))
                               = plugin_config (self w2)) by reflexivity.
    destruct (py_eq _ _); rewrite ?Hl;
      cbn [self set_self set_config with_token_expiry with_access_token with_config
           plugin_config];
      unfold merged_config; rewrite lookup_dict_update;
      destruct (config !! k); reflexivity. }
  exists page. rewrite <- !Hcfg. auto.
Qed.

Lemma page_shows_updated_config_witness :
  let w := fresh_world {[ "feishu_app_id" := PStr "cli_1" ]} in
  let w' := snd (update_config {[ "enabled" := PBool false ]} w) in
  exists page,
    get_page w' = (Ok page, w')
    /\ page_value page "enabled" = Some (PBool false)
    /\ page_value page "feishu_app_id" = Some (PStr "cli_1")
    /\ page_value page "feishu_app_secret" = Some (PStr "").
Proof.
  intros w w'.
  destruct (page_shows_updated_config {[ "enabled" := PBool false ]} w)
    as (page & Hp & H1 & H2 & H3 & _).
  exists page. split; [exact Hp|]. split; [exact H1|]. split; [exact H2 | exact H3].
Defined.

(** X14: the [data] of the command descriptor [get_command] registers is an
    event payload [handle_command] accepts: with a channel added to it, the
    menu is delivered to that channel and reported. *)
Theorem registered_command_is_handled E PluginAction channel w :
  truthy channel = true ->
  exists dd,
    command_data (get_command PluginAction) = [dd]
    /\ exists (b : bool) (w1 : world),
         post_message E channel menu_title menu_text (Some menu_buttons) w = (Ok b, w1)
         /\ handle_command E (<[ "channel" := channel ]> dd) w
            = (Ok tt,
               logged (LogLine INFO "📤 已发送菜单至 {channel}" (ArgVal channel)) w1).
Proof.
  intros Hch. eexists. split; [reflexivity|].
  destruct (post_menu_returns E channel w) as (b & w1 & Hp).
  exists b, w1. split; [exact Hp|].
  rewrite handle_command_unfold.
  assert (Ha : dict_get (<[ "channel" := channel ]>
                           ({[ "action" := PStr "send_feishu_menu" ]} : pydict)) "action"
               = PStr "send_feishu_menu").
  { unfold dict_get. rewrite lookup_insert_ne by discriminate.
    rewrite lookup_singleton_eq. reflexivity. }
  assert (Hc : dict_get (<[ "channel" := channel ]>
                           ({[ "action" := PStr "send_feishu_menu" ]} : pydict)) "channel"
               = channel).
  { unfold dict_get. rewrite lookup_insert_eq. reflexivity. }
  rewrite Ha, Hc. cbn [py_eq_str]. unfold py_or. rewrite Hch. cbn zeta.
  rewrite Hch, Hp. reflexivity.
Qed.

Lemma registered_command_is_handled_witness :
  let E := scenario 1 (reply_token (PStr "tok123")) (reply_code 0 "ok") in
  let w := pooled_world default_config in
  truthy (PStr "oc_1") = true
  /\ exists dd,
       command_data (get_command (PStr "PluginAction")) = [dd]
       /\ fst (handle_command E (<[ "channel" := PStr "oc_1" ]> dd) w) = Ok tt.
Proof.
  intros E w.
  destruct (registered_command_is_handled E (PStr "PluginAction") (PStr "oc_1") w eq_refl)
    as (dd & Hdd & b & w1 & _ & Hh).
  split; [reflexivity|]. exists dd. split; [exact Hdd|]. rewrite Hh. reflexivity.
Defined.

(** ** The configuration entries the pipeline reads *)

Lemma after_check_set_config c w : after_check (set_config c w) = set_config c (after_check w).
Proof.
  unfold after_check. change (_access_token (self (set_config c w))) with (_access_token (self w)).
  destruct (truthy _); reflexivity.
Qed.

Lemma with_session_chosen_set_config c w :
  with_session_chosen (set_config c w) = set_config c (with_session_chosen w).
Proof.
  unfold with_session_chosen. change (_session (self (set_config c w))) with (_session (self w)).
  destruct (_session (self w)); reflexivity.
Qed.

Lemma token_from_body_set_config E b c w :
  token_from_body E b (set_config c w)
  = (fst (token_from_body E b w), set_config c (snd (token_from_body E b w))).
Proof.
  unfold token_from_body, resp_json, py_get, py_getitem, dict_getitem, lift, now, log,
    modify_self, get_self, bind, ret, raise.
  destruct b as [msg | [ | | | | | | d]]; try reflexivity.
  destruct (py_eq_zero (dict_get d "code")); [|reflexivity].
  destruct (d !! "app_access_token"); reflexivity.
Qed.

Lemma get_token_set_config E c w :
  dict_get c "feishu_app_id" = dict_get (plugin_config (self w)) "feishu_app_id" ->
  dict_get c "feishu_app_secret" = dict_get (plugin_config (self w)) "feishu_app_secret" ->
  _get_access_token E (set_config c w)
  = (fst (_get_access_token E w), set_config c (snd (_get_access_token E w))).
Proof.
  intros Hid Hsec.
  assert (Hcv : cache_valid E (set_config c w) = cache_valid E w) by reflexivity.
  assert (Hcs : credentials_set (self (set_config c w)) = credentials_set (self w)).
  { unfold credentials_set. cbn [set_config set_self self with_config plugin_config].
    rewrite Hid, Hsec. reflexivity. }
  assert (Hcall : token_call_of (set_config c w) = token_call_of w).
  { unfold token_call_of. cbn [set_config set_self self with_config plugin_config].
    rewrite Hid, Hsec. reflexivity. }
  destruct (cache_valid E w) eqn:Hv.
  - rewrite !get_token_hit by assumption. reflexivity.
  - destruct (credentials_set (self w)) eqn:Hc.
    + rewrite !get_token_miss by assumption.
      unfold bind, try_except.
      rewrite <- (self_after_check w), <- (self_after_check (set_config c w)).
      rewrite !token_request_eq.
      rewrite !net_log_after_check, !token_call_of_after_check, Hcall.
      rewrite after_check_set_config, with_session_chosen_set_config.
      change (net_log (set_config c w)) with (net_log w).
      destruct (http_reply E _ _) as [msg | b]; [reflexivity|].
      change (sent (token_call_of w) (set_config c (with_session_chosen (after_check w))))
        with (set_config c (sent (token_call_of w) (with_session_chosen (after_check w)))).
      rewrite token_from_body_set_config.
      destruct (token_from_body E b _) as [[[t|] | e] w2]; reflexivity.
    + rewrite !get_token_unconfigured by assumption.
      rewrite after_check_set_config. reflexivity.
Qed.

Lemma message_request_set_config E token channel card c w :
  try_except (message_request E token channel card) message_except (set_config c w)
  = (fst (try_except (message_request E token channel card) message_except w),
     set_config c (snd (try_except (message_request E token channel card) message_except w))).
Proof.
  unfold try_except, message_request, session_post, send, receive, resp_json, py_get,
    lift, log, message_except, bind, ret, raise.
  rewrite !session_or_new_eq, with_session_chosen_set_config.
  change (session_of (set_config c w)) with (session_of w).
  change (net_log (set_config c (with_session_chosen w)))
    with (net_log (with_session_chosen w)).
  destruct (http_reply E _ _) as [msg | [msg2 | v]]; try reflexivity.
  destruct v; try reflexivity.
  destruct (py_eq_zero _); reflexivity.
Qed.

(** X15: [post_message] reads the configuration at the two credentials only:
    run with any other configuration that has the same [feishu_app_id] and
    [feishu_app_secret], it returns the same, sends the same requests and
    reports the same lines.  In particular it does not look at [enabled]: a
    plugin whose [get_state] is [False] for that reason still delivers. *)
Theorem post_message_reads_only_credentials E channel title text buttons c w :
  dict_get c "feishu_app_id" = dict_get (plugin_config (self w)) "feishu_app_id" ->
  dict_get c "feishu_app_secret" = dict_get (plugin_config (self w)) "feishu_app_secret" ->
  let r := post_message E channel title text buttons w in
  let r' := post_message E channel title text buttons (set_config c w) in
  fst r' = fst r
  /\ snd r' = set_config c (snd r)
  /\ net_log (snd r') = net_log (snd r)
  /\ host_log (snd r') = host_log (snd r).
Proof.
  intros Hid Hsec r r'.
  assert (Heq : r' = (fst r, set_config c (snd r))).
  { subst r r'. rewrite !post_message_unfold, (get_token_set_config E c w Hid Hsec).
    destruct (_get_access_token E w) as [[token | e] w1]; cbn [fst snd]; [|reflexivity].
    destruct (truthy token); [|reflexivity].
    destruct (build_card title text buttons) as [card | e]; [|reflexivity].
    apply message_request_set_config. }
  rewrite Heq. cbn [fst snd]. repeat split.
Qed.

Lemma post_message_reads_only_credentials_witness :
  let E := scenario 1 (reply_token (PStr "tok123")) (reply_code 0 "ok") in
  let w := fresh_world default_config in
  let c : pydict := <[ "enabled" := PBool false ]> default_config in
  fst (get_state (set_config c w)) = Ok false
  /\ fst (post_message E (PStr "oc_1") (PStr "Hi") (PStr "") one_button (set_config c w))
     = Ok true.
Proof.
  intros E w c.
  destruct (post_message_reads_only_credentials
              E (PStr "oc_1") (PStr "Hi") (PStr "") one_button c w eq_refl eq_refl)
    as (Hr & _).
  split; [reflexivity|]. rewrite Hr. reflexivity.
Defined.

(** ** Stopping and starting again *)

(** X16: [stop] followed by [init_plugin] (long connection wanted) swaps
    the pool: the session that was held is closed, a session created at that
    moment is held instead, and it is none of the closed ones; the cached
    token is gone and nothing was sent. *)
Theorem restart_holds_a_live_session config w s :
  _session (self w) = Some s ->
  (s < sessions_created w)%nat ->
  Forall (fun x => (x < sessions_created w)%nat) (sessions_closed w) ->
  truthy (dict_get_or (merged_config w (default ∅ config)) "use_long_connection"
                      (PBool true)) = true ->
  let w2 := snd (init_plugin config (snd (stop w))) in
  sessions_closed w2 = sessions_closed w ++ [s]
  /\ (exists s', _session (self w2) = Some s'
                 /\ s' = sessions_created w
                 /\ s' <> s
                 /\ s' ∉ sessions_closed w2)
  /\ sessions_created w2 = S (sessions_created w)
  /\ _access_token (self w2) = PNone
  /\ net_log w2 = net_log w.
Proof.
  intros Hs Hlt Hcl Hlong w2.
  pose proof (init_plugin_eq config (snd (stop w))) as Hinit. cbn zeta in Hinit.
  rewrite stop_eq, Hs in Hinit. cbn [snd] in Hinit.
  change (merged_config (logged _ (set_self _ (set_self _ (closed s w)))) (default ∅ config))
    with (merged_config w (default ∅ config)) in Hinit.
  rewrite Hlong in Hinit. cbn [andb _session self set_self logged set_config with_config
                               with_access_token with_session closed] in Hinit.
  assert (Hw2 : w2 = snd (init_plugin config (snd (stop w)))) by reflexivity.
  rewrite stop_eq, Hs in Hw2. cbn [snd] in Hw2. rewrite Hinit in Hw2.
  assert (Hfresh : sessions_created w ∉ sessions_closed w ++ [s]).
  { intros Hin. apply elem_of_app in Hin as [Hin | Hin].
    - rewrite Forall_forall in Hcl. specialize (Hcl _ Hin). lia.
    - apply list_elem_of_singleton in Hin. lia. }
  destruct (py_slice10 _); rewrite Hw2; cbn [snd];
    (split; [reflexivity|]);
    (split; [exists (sessions_created w);
             split; [reflexivity|]; split; [reflexivity|]; split; [lia | exact Hfresh]|]);
    repeat split.
Qed.

Lemma restart_holds_a_live_session_witness :
  let w := pooled_world default_config in
  let w2 := snd (init_plugin None (snd (stop w))) in
  _session (self w) = Some 0%nat
  /\ sessions_closed w2 = [0%nat]
  /\ _session (self w2) = Some 1%nat
  /\ sessions_created w2 = 2%nat.
Proof.
  intros w w2.
  assert (Hs : _session (self w) = Some 0%nat) by reflexivity.
  assert (Hlt : (0 < sessions_created w)%nat) by (cbn; lia).
  assert (Hcl : Forall (fun x => (x < sessions_created w)%nat) (sessions_closed w))
    by constructor.
  destruct (restart_holds_a_live_session None w 0%nat Hs Hlt Hcl eq_refl)
    as (Hclosed & (s' & Hheld & Hnew & _) & Hcreated & _).
  split; [exact Hs|]. split; [exact Hclosed|].
  split; [fold w2 in Hheld; rewrite Hheld, Hnew; reflexivity | exact Hcreated].
Defined.
